(** * change-ddio: the root-port resolver and the perfctrlsts_0 editor

    A shallow embedding of [change-ddio.c].  Machine integers are [Z] with
    the wrap-around of their C type written out, the configuration space of
    a device is a map from byte offsets to bytes, a [struct pci_dev *] is an
    index into the device list ([None] for [NULL]), and the effects of the
    program (standard output, libpci calls, [exit]) are threaded through a
    small state-and-exit monad. *)

From Stdlib Require Import ZArith List String Ascii Lia Bool.
From stdpp Require Import base list.
Import ListNotations.
Local Open Scope Z_scope.

(** ** Machine integers *)

Module MachineInt.

(** Conversion to [uint8_t] and [uint32_t]. *)
Definition u8 (x : Z) : Z := x mod 2 ^ 8.
Definition u32 (x : Z) : Z := x mod 2 ^ 32.

(** Conversion of a [long] to [int] (two's complement, 32 bits). *)
Definition to_int (x : Z) : Z := (x + 2 ^ 31) mod 2 ^ 32 - 2 ^ 31.

Definition LONG_MAX : Z := 2 ^ 63 - 1.
Definition LONG_MIN : Z := - 2 ^ 63.

End MachineInt.
Export MachineInt.

(** ** Constants of the program and of <pci/header.h> *)

Definition PCI_VENDOR_ID_INTEL : Z := 0x8086.
Definition SKX_PERFCTRLSTS_0 : Z := 0x180.
Definition SKX_use_allocating_flow_wr_MASK : Z := 0x80.
Definition SKX_nosnoopopwren_MASK : Z := 0x8.

(** Offsets of the bus-range bytes of a type-1 header, from libpci's
    header file. *)
Definition PCI_SECONDARY_BUS : Z := 0x19.
Definition PCI_SUBORDINATE_BUS : Z := 0x1a.

(** ** Devices *)

(** The fields of [struct pci_dev] the program reads, and the device's
    configuration space as a byte at every offset. *)
Record pci_dev : Type := mk_pci_dev {
  domain : Z;
  bus : Z;
  dev : Z;
  func : Z;
  vendor_id : Z;
  device_id : Z;
  device_class : Z;
  irq : Z;
  base_addr0 : Z;
  config : Z -> Z
}.

(** [dev->bus] is a [u8]. *)
Definition busNumber (d : pci_dev) : Z := u8 (bus d).

(** One byte of configuration space. *)
Definition cfg_byte (d : pci_dev) (pos : Z) : Z := u8 (config d pos).

(** Four bytes of configuration space, little-endian. *)
Definition cfg_long (d : pci_dev) (pos : Z) : Z :=
  cfg_byte d pos
  + Z.shiftl (cfg_byte d (pos + 1)) 8
  + Z.shiftl (cfg_byte d (pos + 2)) 16
  + Z.shiftl (cfg_byte d (pos + 3)) 24.

(** A simulated register: the four bytes at [pos] take the written value,
    every other byte keeps its content. *)
Definition cfg_store_long (d : pci_dev) (pos : Z) (v : Z) : pci_dev :=
  {| domain := domain d; bus := bus d; dev := dev d; func := func d;
     vendor_id := vendor_id d; device_id := device_id d;
     device_class := device_class d; irq := irq d;
     base_addr0 := base_addr0 d;
     config := fun o =>
       if o =? pos then u8 v
       else if o =? pos + 1 then u8 (Z.shiftr v 8)
       else if o =? pos + 2 then u8 (Z.shiftr v 16)
       else if o =? pos + 3 then u8 (Z.shiftr v 24)
       else config d o |}.

Definition secondaryBus (d : pci_dev) : Z := cfg_byte d PCI_SECONDARY_BUS.
Definition subordinateBus (d : pci_dev) : Z := cfg_byte d PCI_SUBORDINATE_BUS.

(** ** The new register value (ddio_configure, "Calculate new value") *)

Definition ddio_val_new (val_before use_allocating_flow_wr nosnoopopwren : Z) : Z :=
  let val_new := val_before in
  let val_new :=
    if negb (use_allocating_flow_wr =? 0)
    then Z.lor val_new SKX_use_allocating_flow_wr_MASK
    else Z.land val_new (u32 (Z.lnot SKX_use_allocating_flow_wr_MASK)) in
  let val_new :=
    if negb (nosnoopopwren =? 0)
    then Z.lor val_new SKX_nosnoopopwren_MASK
    else Z.land val_new (u32 (Z.lnot SKX_nosnoopopwren_MASK)) in
  val_new.

(** ** The world of the process *)

(** An argument of a [printf] call. *)
Inductive arg : Type :=
| AInt (z : Z)                       (* an integer conversion *)
| AStr (s : string)                  (* a %s conversion *)
| AName (vendor device : Z)          (* the string pci_lookup_name returns *)
| AIndet.                            (* an object read before it is set *)

(** What the process does to the outside, in order. *)
Inductive event : Type :=
| EvPrintf (fmt : string) (args : list arg)
| EvAlloc                            (* pci_alloc *)
| EvInit                             (* pci_init *)
| EvScanBus                          (* pci_scan_bus *)
| EvFillInfo (p : nat)               (* pci_fill_info on device p *)
| EvReadByte (p : nat) (pos : Z)     (* pci_read_byte *)
| EvReadLong (p : nat) (pos : Z)     (* pci_read_long *)
| EvWriteLong (p : nat) (pos : Z) (v : Z)  (* pci_write_long *)
| EvLookupName (vendor device : Z)   (* pci_lookup_name *)
| EvCleanup.                         (* pci_cleanup *)

(** [pacc] tells whether the global [pacc] is set; [devices] is the list
    [pacc->devices] walks, each device with its configuration space;
    [trace] is every event so far, oldest first. *)
Record world : Type := mk_world {
  pacc : bool;
  devices : list pci_dev;
  trace : list event
}.

Definition log (e : event) (w : world) : world :=
  {| pacc := pacc w; devices := devices w; trace := trace w ++ [e] |}.

Definition set_pacc (w : world) : world :=
  {| pacc := true; devices := devices w; trace := trace w |}.

Definition set_devices (l : list pci_dev) (w : world) : world :=
  {| pacc := pacc w; devices := l; trace := trace w |}.

(** How a call ends. *)
Inductive outcome (A : Type) : Type :=
| Ret (a : A)                        (* it returned a *)
| Exit (status : Z)                  (* exit(status) ended the process *)
| Fault.                             (* it dereferenced a pointer that is not valid *)
Arguments Ret {A} a.
Arguments Exit {A} status.
Arguments Fault {A}.

Definition M (A : Type) : Type := world -> outcome A * world.

Definition ret {A : Type} (a : A) : M A := fun w => (Ret a, w).

Definition bind {A B : Type} (m : M A) (k : A -> M B) : M B :=
  fun w =>
    match m w with
    | (Ret a, w') => k a w'
    | (Exit status, w') => (Exit status, w')
    | (Fault, w') => (Fault, w')
    end.

Notation "'let*' x ':=' m 'in' k" := (bind m (fun x => k))
  (at level 10, x name, m at level 100, k at level 200).
Notation "m ;> k" := (bind m (fun _ => k))
  (at level 100, k at level 200, right associativity).

Definition exit {A : Type} (status : Z) : M A := fun w => (Exit status, w).

Definition emit (e : event) : M unit := fun w => (Ret tt, log e w).

Definition printf (fmt : string) (args : list arg) : M unit :=
  emit (EvPrintf fmt args).

(** The exit status of the process when [main] ends with this outcome. *)
Definition exit_status (o : outcome Z) : option Z :=
  match o with
  | Ret n => Some n
  | Exit n => Some n
  | Fault => None
  end.

(** ** libpci *)

(** [dev->field]: the device a pointer names. *)
Definition deref (p : nat) : M pci_dev :=
  fun w =>
    match devices w !! p with
    | Some d => (Ret d, w)
    | None => (Fault, w)
    end.

(** [pacc->devices]: the number of devices on the list. *)
Definition pacc_devices : M nat :=
  fun w => if pacc w then (Ret (length (devices w)), w) else (Fault, w).

Definition pci_fill_info (p : nat) : M unit := emit (EvFillInfo p).

Definition pci_read_byte (p : nat) (pos : Z) : M Z :=
  let* d := deref p in
  emit (EvReadByte p pos) ;>
  ret (cfg_byte d pos).

Definition pci_read_long (p : nat) (pos : Z) : M Z :=
  let* d := deref p in
  emit (EvReadLong p pos) ;>
  ret (cfg_long d pos).

Definition pci_write_long (p : nat) (pos : Z) (v : Z) : M unit :=
  let* d := deref p in
  emit (EvWriteLong p pos v) ;>
  fun w => (Ret tt, set_devices (<[p := cfg_store_long d pos v]> (devices w)) w).

Definition pci_lookup_name (vendor device : Z) : M arg :=
  emit (EvLookupName vendor device) ;>
  ret (AName vendor device).

Definition pci_cleanup : M unit := emit EvCleanup.

(** ** The program *)

Definition init_pci_access : M unit :=
  emit EvAlloc ;>
  (fun w => (Ret tt, set_pacc w)) ;>
  emit EvInit ;>
  emit EvScanBus.

(** The test of the loop body: does this bridge cover [nic_bus]? *)
Definition covers (subordinate secondary nic_bus : Z) : bool :=
  (subordinate =? nic_bus) && (secondary <=? nic_bus) && (subordinate >=? nic_bus).

(** The [for] loop of [find_ddio_device]: [n] devices are left, the next
    one is [p]. *)
Fixpoint find_ddio_loop (nic_bus : Z) (n : nat) (p : nat)
    (best_match : option nat) (lowest_bus : Z) : M (option nat) :=
  match n with
  | O => ret best_match
  | S n' =>
    pci_fill_info p ;>
    let* subordinate := pci_read_byte p PCI_SUBORDINATE_BUS in
    let* secondary := pci_read_byte p PCI_SECONDARY_BUS in
    let* d := deref p in
    if covers subordinate secondary nic_bus then
      if busNumber d <? lowest_bus
      then find_ddio_loop nic_bus n' (S p) (Some p) (busNumber d)
      else find_ddio_loop nic_bus n' (S p) best_match lowest_bus
    else find_ddio_loop nic_bus n' (S p) best_match lowest_bus
  end.

Definition find_ddio_device (nic_bus : Z) : M (option nat) :=
  let* n := pacc_devices in
  let* best_match := find_ddio_loop nic_bus n 0%nat None 0xff in
  match best_match with
  | None => printf "Could not find the proper PCIe root!\n" []
  | Some _ => ret tt
  end ;>
  ret best_match.

Definition ensure_pci_access : M unit :=
  fun w => if pacc w then (Ret tt, w) else init_pci_access w.

Definition ddio_status (nic_bus : Z) : M Z :=
  ensure_pci_access ;>
  let* found := find_ddio_device nic_bus in
  match found with
  | None => printf "No device found!\n" [] ;> exit 1
  | Some p =>
    let* val := pci_read_long p SKX_PERFCTRLSTS_0 in
    printf "perfctrlsts_0 val: 0x%x\n" [AInt val] ;>
    printf "NoSnoopOpWrEn val: 0x%x\n"
      [AInt (Z.land val SKX_nosnoopopwren_MASK)] ;>
    printf "Use_Allocating_Flow_Wr val: 0x%x\n"
      [AInt (Z.land val SKX_use_allocating_flow_wr_MASK)] ;>
    if negb (Z.land val SKX_use_allocating_flow_wr_MASK =? 0)
    then ret 1
    else ret 0
  end.

(** The four lines printed for a register value, before and after. *)
Definition print_register (title : string) (val : Z) : M unit :=
  printf title [] ;>
  printf "perfctrlsts_0 register value: 0x%08x\n" [AInt val] ;>
  printf "  Use_Allocating_Flow_Wr (bit 7, DDIO): 0x%02x (%s)\n"
    [AInt (Z.shiftr (Z.land val SKX_use_allocating_flow_wr_MASK) 7);
     AStr (if negb (Z.land val SKX_use_allocating_flow_wr_MASK =? 0)
           then "enabled" else "disabled")] ;>
  printf "  NoSnoopOpWrEn (bit 3, NS): 0x%02x (%s)\n"
    [AInt (Z.shiftr (Z.land val SKX_nosnoopopwren_MASK) 3);
     AStr (if negb (Z.land val SKX_nosnoopopwren_MASK =? 0)
           then "mem write" else "LLC write")].

Definition ddio_configure (nic_bus use_allocating_flow_wr nosnoopopwren : Z)
    : M unit :=
  ensure_pci_access ;>
  let* found := find_ddio_device nic_bus in
  match found with
  | None => printf "No device found!\n" [] ;> exit 1
  | Some p =>
    let* val_before := pci_read_long p SKX_PERFCTRLSTS_0 in
    print_register "\n=== BEFORE Configuration ===\n" val_before ;>
    let val_new := ddio_val_new val_before use_allocating_flow_wr nosnoopopwren in
    pci_write_long p SKX_PERFCTRLSTS_0 val_new ;>
    let* val_after := pci_read_long p SKX_PERFCTRLSTS_0 in
    print_register "\n=== AFTER Configuration ===\n" val_after ;>
    printf "\nConfiguration applied successfully!\n" []
  end.

Definition print_dev_info (found : option nat) : M unit :=
  match found with
  | None => printf "No device found!\n" [] ;> exit 1
  | Some p =>
    let* d := deref p in
    printf "========================\n" [] ;>
    printf "%04x:%02x:%02x.%d vendor=%04x device=%04x class=%04x irq=%d (pin %d) base0=%lx \n"
      [AInt (domain d); AInt (busNumber d); AInt (u8 (dev d)); AInt (u8 (func d));
       AInt (vendor_id d); AInt (device_id d); AInt (device_class d);
       AInt (irq d); AIndet; AInt (base_addr0 d)] ;>
    let* name := pci_lookup_name (vendor_id d) (device_id d) in
    printf " (%s)\n" [name] ;>
    printf "========================\n" []
  end.

(** ** The C library's number parsing *)

Definition isspace (c : ascii) : bool :=
  let n := nat_of_ascii c in
  Nat.eqb n 32 || (Nat.leb 9 n && Nat.leb n 13).

(** The value of a character as a digit: 0-9, then a-z and A-Z as 10-35. *)
Definition digit_value (c : ascii) : option Z :=
  let n := Z.of_nat (nat_of_ascii c) in
  if (48 <=? n) && (n <=? 57) then Some (n - 48)
  else if (97 <=? n) && (n <=? 122) then Some (n - 97 + 10)
  else if (65 <=? n) && (n <=? 90) then Some (n - 65 + 10)
  else None.

Definition is_digit_of (base : Z) (c : ascii) : bool :=
  match digit_value c with
  | Some v => v <? base
  | None => false
  end.

Fixpoint skip_space (s : string) : string :=
  match s with
  | String c rest => if isspace c then skip_space rest else s
  | EmptyString => s
  end.

(** The digits of [base] at the front of [s], read into [acc]. *)
Fixpoint read_digits (base : Z) (s : string) (acc : Z) : Z :=
  match s with
  | String c rest =>
    match digit_value c with
    | Some v => if v <? base then read_digits base rest (acc * base + v) else acc
    | None => acc
    end
  | EmptyString => acc
  end.

(** [strtol(nptr, NULL, base)] for base 0, 8, 10 and 16: white space, an
    optional sign, with base 0 or 16 an optional 0x before a hexadecimal
    digit, with base 0 a leading 0 for octal; the result is clamped to the
    range of [long]. *)
Definition strtol (nptr : string) (base : Z) : Z :=
  let s := skip_space nptr in
  let '(negative, s) :=
    match s with
    | String "-"%char rest => (true, rest)
    | String "+"%char rest => (false, rest)
    | _ => (false, s)
    end in
  let '(base, s) :=
    match s with
    | String "0"%char (String x (String h rest)) =>
      if ((base =? 0) || (base =? 16))
         && (Ascii.eqb x "x" || Ascii.eqb x "X") && is_digit_of 16 h
      then (16, String h rest)
      else (if base =? 0 then 8 else base, s)
    | String "0"%char _ => (if base =? 0 then 8 else base, s)
    | _ => (if base =? 0 then 10 else base, s)
    end in
  let v := read_digits base s 0 in
  let v := if negative : bool then - v else v in
  Z.max LONG_MIN (Z.min LONG_MAX v).

(** [atoi(nptr)] is [(int) strtol(nptr, NULL, 10)]. *)
Definition atoi (nptr : string) : Z := to_int (strtol nptr 10).

(** ** main *)

Definition usage (argv0 : string) : M unit :=
  printf "Usage: %s <port_num> <use_allocating_flow_wr> <nosnoopopwren>\n" [AStr argv0] ;>
  printf "\nArguments:\n" [] ;>
  printf "  port_num              : End device port number (hex, e.g., 0x9b or decimal)\n" [] ;>
  printf "  use_allocating_flow_wr: DDIO enable (1) / disable (0)\n" [] ;>
  printf "  nosnoopopwren         : NS enable for mem write (1) / NS disable for LLC write (0)\n" [] ;>
  printf "\nExample:\n" [] ;>
  printf "  %s 0x9b 1 0    # Enable DDIO, disable NS (LLC write)\n" [AStr argv0] ;>
  printf "  %s 155 0 1     # Disable DDIO, enable NS (mem write)\n" [AStr argv0].

(** The part of [main] after the arguments are validated. *)
Definition main_configure (nic_bus use_allocating_flow_wr nosnoopopwren : Z) : M Z :=
  printf "Configuration parameters:\n" [] ;>
  printf "  Port number (nic_bus): 0x%02x (%d)\n" [AInt nic_bus; AInt nic_bus] ;>
  printf "  Use_Allocating_Flow_Wr (DDIO): %d (%s)\n"
    [AInt use_allocating_flow_wr;
     AStr (if negb (use_allocating_flow_wr =? 0) then "enable" else "disable")] ;>
  printf "  NoSnoopOpWrEn (NS): %d (%s)\n"
    [AInt nosnoopopwren;
     AStr (if negb (nosnoopopwren =? 0) then "mem write" else "LLC write")] ;>
  init_pci_access ;>
  let* found := find_ddio_device nic_bus in
  print_dev_info found ;>
  ddio_configure nic_bus use_allocating_flow_wr nosnoopopwren ;>
  pci_cleanup ;>
  ret 0.

Definition main (argv : list string) : M Z :=
  let argc := Z.of_nat (length argv) in
  let arg_at (n : nat) := nth n argv EmptyString in
  if negb (argc =? 4) then
    usage (arg_at 0%nat) ;>
    ret 1
  else
    let nic_bus := u8 (strtol (arg_at 1%nat) 0) in
    let use_allocating_flow_wr := u8 (atoi (arg_at 2%nat)) in
    let nosnoopopwren := u8 (atoi (arg_at 3%nat)) in
    if (use_allocating_flow_wr >? 1) || (nosnoopopwren >? 1) then
      printf "Error: use_allocating_flow_wr and nosnoopopwren must be 0 or 1\n" [] ;>
      ret 1
    else
      main_configure nic_bus use_allocating_flow_wr nosnoopopwren.

(** ** The resolver as a function of the device list *)

(** A record is a candidate for [nic_bus] when the loop's test holds of its
    bus-range bytes. *)
Definition candidate (nic_bus : Z) (d : pci_dev) : bool :=
  covers (subordinateBus d) (secondaryBus d) nic_bus.

(** What the loop leaves in [best_match] after the devices [devs], the
    first of which is device [p]. *)
Fixpoint scan (nic_bus : Z) (devs : list pci_dev) (p : nat)
    (best_match : option nat) (lowest_bus : Z) : option nat :=
  match devs with
  | [] => best_match
  | d :: rest =>
    if candidate nic_bus d && (busNumber d <? lowest_bus)
    then scan nic_bus rest (S p) (Some p) (busNumber d)
    else scan nic_bus rest (S p) best_match lowest_bus
  end.

(** No candidate of [l] is on a bus below [bound]. *)
Definition none_below (nic_bus bound : Z) (l : list pci_dev) : Prop :=
  forall j d, l !! j = Some d -> candidate nic_bus d = true -> bound <= busNumber d.

(** Device [j] of [l] is a candidate on the lowest bus of all candidates,
    and the first such device on the list. *)
Definition first_lowest (nic_bus : Z) (l : list pci_dev) (j : nat) (d : pci_dev) : Prop :=
  l !! j = Some d /\ candidate nic_bus d = true
  /\ none_below nic_bus (busNumber d) l
  /\ forall j' d', (j' < j)%nat -> l !! j' = Some d' ->
       candidate nic_bus d' = true -> busNumber d < busNumber d'.

(** The libpci calls of [n] rounds of the loop from device [p] on. *)
Fixpoint scan_events (n p : nat) : list event :=
  match n with
  | O => []
  | S n' =>
    [EvFillInfo p; EvReadByte p PCI_SUBORDINATE_BUS; EvReadByte p PCI_SECONDARY_BUS]
    ++ scan_events n' (S p)
  end.

(** Everything [find_ddio_device] does on the device list [devs]. *)
Definition find_events (nic_bus : Z) (devs : list pci_dev) : list event :=
  scan_events (length devs) 0
  ++ match scan nic_bus devs 0 None 0xff with
     | None => [EvPrintf "Could not find the proper PCIe root!\n" []]
     | Some _ => []
     end.

Definition logs (es : list event) (w : world) : world :=
  {| pacc := pacc w; devices := devices w; trace := trace w ++ es |}.

(** The events [print_register] adds. *)
Definition register_report (title : string) (val : Z) : list event :=
  [EvPrintf title [];
   EvPrintf "perfctrlsts_0 register value: 0x%08x\n" [AInt val];
   EvPrintf "  Use_Allocating_Flow_Wr (bit 7, DDIO): 0x%02x (%s)\n"
     [AInt (Z.shiftr (Z.land val SKX_use_allocating_flow_wr_MASK) 7);
      AStr (if negb (Z.land val SKX_use_allocating_flow_wr_MASK =? 0)
            then "enabled" else "disabled")];
   EvPrintf "  NoSnoopOpWrEn (bit 3, NS): 0x%02x (%s)\n"
     [AInt (Z.shiftr (Z.land val SKX_nosnoopopwren_MASK) 3);
      AStr (if negb (Z.land val SKX_nosnoopopwren_MASK =? 0)
            then "mem write" else "LLC write")]].

(** The events of [init_pci_access] when [pacc] is not set yet. *)
Definition init_events (w : world) : list event :=
  if pacc w then [] else [EvAlloc; EvInit; EvScanBus].

(** Does the event read or write configuration space within the four
    bytes of the register at [pos]? *)
Definition touches (pos : Z) (e : event) : bool :=
  match e with
  | EvReadByte _ o => (pos <=? o) && (o <? pos + 4)
  | EvReadLong _ o => (pos - 4 <? o) && (o <? pos + 4)
  | EvWriteLong _ o _ => (pos - 4 <? o) && (o <? pos + 4)
  | _ => false
  end.

Definition is_write (e : event) : bool :=
  match e with
  | EvWriteLong _ _ _ => true
  | _ => false
  end.

(** No event of [es] touches perfctrlsts_0 and none is a write. *)
Definition leaves_register_alone (es : list event) : Prop :=
  Forall (fun e => touches SKX_PERFCTRLSTS_0 e = false /\ is_write e = false) es.

(** The event is a line printed on standard output. *)
Definition only_printf (e : event) : Prop :=
  match e with
  | EvPrintf _ _ => True
  | _ => False
  end.

(** ** The events of each part of the program *)

(** The events of [usage]. *)
Definition usage_events (argv0 : string) : list event :=
  [EvPrintf "Usage: %s <port_num> <use_allocating_flow_wr> <nosnoopopwren>\n" [AStr argv0];
   EvPrintf "\nArguments:\n" [];
   EvPrintf "  port_num              : End device port number (hex, e.g., 0x9b or decimal)\n" [];
   EvPrintf "  use_allocating_flow_wr: DDIO enable (1) / disable (0)\n" [];
   EvPrintf "  nosnoopopwren         : NS enable for mem write (1) / NS disable for LLC write (0)\n" [];
   EvPrintf "\nExample:\n" [];
   EvPrintf "  %s 0x9b 1 0    # Enable DDIO, disable NS (LLC write)\n" [AStr argv0];
   EvPrintf "  %s 155 0 1     # Disable DDIO, enable NS (mem write)\n" [AStr argv0]].

Definition flag_error : event :=
  EvPrintf "Error: use_allocating_flow_wr and nosnoopopwren must be 0 or 1\n" [].

Definition no_device : event := EvPrintf "No device found!\n" [].

(** The four lines [main_configure] prints first. *)
Definition parameter_report (nic_bus a b : Z) : list event :=
  [EvPrintf "Configuration parameters:\n" [];
   EvPrintf "  Port number (nic_bus): 0x%02x (%d)\n" [AInt nic_bus; AInt nic_bus];
   EvPrintf "  Use_Allocating_Flow_Wr (DDIO): %d (%s)\n"
     [AInt a; AStr (if negb (a =? 0) then "enable" else "disable")];
   EvPrintf "  NoSnoopOpWrEn (NS): %d (%s)\n"
     [AInt b; AStr (if negb (b =? 0) then "mem write" else "LLC write")]].

(** The events of [print_dev_info] on a device. *)
Definition dev_info_events (d : pci_dev) : list event :=
  [EvPrintf "========================\n" [];
   EvPrintf "%04x:%02x:%02x.%d vendor=%04x device=%04x class=%04x irq=%d (pin %d) base0=%lx \n"
     [AInt (domain d); AInt (busNumber d); AInt (u8 (dev d)); AInt (u8 (func d));
      AInt (vendor_id d); AInt (device_id d); AInt (device_class d);
      AInt (irq d); AIndet; AInt (base_addr0 d)];
   EvLookupName (vendor_id d) (device_id d);
   EvPrintf " (%s)\n" [AName (vendor_id d) (device_id d)];
   EvPrintf "========================\n" []].

(** The three lines [ddio_status] prints for the value it read. *)
Definition status_report (val : Z) : list event :=
  [EvPrintf "perfctrlsts_0 val: 0x%x\n" [AInt val];
   EvPrintf "NoSnoopOpWrEn val: 0x%x\n" [AInt (Z.land val SKX_nosnoopopwren_MASK)];
   EvPrintf "Use_Allocating_Flow_Wr val: 0x%x\n"
     [AInt (Z.land val SKX_use_allocating_flow_wr_MASK)]].

(** The events of [ddio_configure] on device [p] from the first register
    read on: the value read, the value written, the value read back. *)
Definition configure_events (p : nat) (val_before val_new val_after : Z) : list event :=
  [EvReadLong p SKX_PERFCTRLSTS_0]
  ++ register_report "\n=== BEFORE Configuration ===\n" val_before
  ++ [EvWriteLong p SKX_PERFCTRLSTS_0 val_new; EvReadLong p SKX_PERFCTRLSTS_0]
  ++ register_report "\n=== AFTER Configuration ===\n" val_after
  ++ [EvPrintf "\nConfiguration applied successfully!\n" []].

(** The resolver finds a bridge for [nic_bus] on the list: some candidate
    is on a bus below 0xff. *)
Definition resolvable (nic_bus : Z) (l : list pci_dev) : Prop :=
  exists j d, l !! j = Some d /\ candidate nic_bus d = true /\ busNumber d < 0xff.

(** The register value a later read of device [p] observes. *)
Definition observed (p : nat) (w : world) : option Z :=
  match devices w !! p with
  | Some d => Some (cfg_long d SKX_PERFCTRLSTS_0)
  | None => None
  end.

(** ** Devices and worlds for the examples *)

(** A device on bus [b] whose bus-range bytes are [secondary] and
    [subordinate] and whose perfctrlsts_0 register holds [perf]. *)
Definition sample_dev (b secondary subordinate perf : Z) : pci_dev :=
  cfg_store_long
    {| domain := 0; bus := b; dev := 0; func := 0;
       vendor_id := PCI_VENDOR_ID_INTEL; device_id := 0x2030;
       device_class := 0x0604; irq := 0; base_addr0 := 0;
       config := fun o =>
         if o =? PCI_SECONDARY_BUS then secondary
         else if o =? PCI_SUBORDINATE_BUS then subordinate
         else 0 |}
    SKX_PERFCTRLSTS_0 perf.

Definition sample_world (devs : list pci_dev) : world :=
  {| pacc := true; devices := devs; trace := [] |}.

Definition fresh_world (devs : list pci_dev) : world :=
  {| pacc := false; devices := devs; trace := [] |}.

(** The only candidate for bus 0x17 is on bus 0xff. *)
Definition world_bus_ff : world :=
  sample_world [sample_dev 0x00 0x01 0x16 0; sample_dev 0xff 0x00 0x17 0].

(** Two candidates for bus 0x17, both on bus 0xff. *)
Definition world_two_ff : world :=
  sample_world [sample_dev 0xff 0x01 0x17 0; sample_dev 0xff 0x02 0x17 0].

(** Two candidates for bus 0x17, on buses 0x10 and 0x05. *)
Definition world_tie : world :=
  sample_world [sample_dev 0x10 0x11 0x17 0; sample_dev 0x05 0x06 0x17 0].

(** A machine with one root port that covers bus 0x17, before the program
    starts. *)
Definition world_one_port (perf : Z) : world :=
  fresh_world [sample_dev 0x16 0x17 0x17 perf].

(** ** What the resolver looks at, and what it visits *)

(** Two devices agree on what the loop of [find_ddio_device] reads: the
    bus number and the two bus-range bytes. *)
Definition same_bus_bytes (d d' : pci_dev) : Prop :=
  busNumber d = busNumber d'
  /\ secondaryBus d = secondaryBus d'
  /\ subordinateBus d = subordinateBus d'.

(** The bus number of the device [find_ddio_device] returns, if any. *)
Definition chosen_bus (nic_bus : Z) (w : world) : option Z :=
  match fst (find_ddio_device nic_bus w) with
  | Ret (Some p) =>
    match devices w !! p with
    | Some d => Some (busNumber d)
    | None => None
    end
  | _ => None
  end.

(** The device a [pci_fill_info] event is about. *)
Definition filled (e : event) : option nat :=
  match e with
  | EvFillInfo p => Some p
  | _ => None
  end.

(** The device and offset of a [pci_read_byte] event. *)
Definition byte_read (e : event) : option (nat * Z) :=
  match e with
  | EvReadByte p pos => Some (p, pos)
  | _ => None
  end.

(** The byte reads of one round of the loop on device [p]. *)
Definition bus_range_reads (p : nat) : list (nat * Z) :=
  [(p, PCI_SUBORDINATE_BUS); (p, PCI_SECONDARY_BUS)].

(** The event is one of [init_pci_access]. *)
Definition is_init (e : event) : bool :=
  match e with
  | EvAlloc | EvInit | EvScanBus => true
  | _ => false
  end.

(** A machine whose only device is an Ethernet controller of another
    vendor with bytes 0x19 and 0x1a of its header equal to 0x17. *)
Definition world_no_bridge : world :=
  sample_world
    [{| domain := 0; bus := 0x16; dev := 3; func := 1;
        vendor_id := 0x15b3; device_id := 0x1017;
        device_class := 0x0200; irq := 11; base_addr0 := 0xfb000000;
        config := fun o => if o =? 0x19 then 0x17
                           else if o =? 0x1a then 0x17 else 0xff |}].

(** The devices of [world_tie] listed in the other order. *)
Definition world_tie_swapped : world :=
  sample_world [sample_dev 0x05 0x06 0x17 0; sample_dev 0x10 0x11 0x17 0].

(** The arguments pass the two checks of [main]. *)
Definition accepted (argv : list string) : bool :=
  Nat.eqb (length argv) 4
  && (u8 (atoi (nth 2 argv EmptyString)) <=? 1)
  && (u8 (atoi (nth 3 argv EmptyString)) <=? 1).

(** * Theorems *)

(** ** The parsing functions on the inputs of the usage text and on others *)

Example strtol_hex : strtol "0x9b" 0 = 155.
Proof. reflexivity. Qed.

Example strtol_decimal : strtol "155" 0 = 155.
Proof. reflexivity. Qed.

Example strtol_octal : strtol "017" 0 = 15.
Proof. reflexivity. Qed.

Example strtol_clamps : strtol "99999999999999999999" 10 = LONG_MAX.
Proof. reflexivity. Qed.

Example atoi_sign_and_rest : atoi " -12abc" = -12.
Proof. reflexivity. Qed.

Example atoi_no_digits : atoi "yes" = 0.
Proof. reflexivity. Qed.

Example flag_byte_of_257 : u8 (atoi "257") = 1.
Proof. reflexivity. Qed.

Example flag_byte_of_2 : u8 (atoi "2") = 2.
Proof. reflexivity. Qed.

(** ** Machine integers and bits *)

Lemma u8_range x : 0 <= u8 x < 256.
Proof. unfold u8. change (2 ^ 8) with 256. apply Z.mod_pos_bound. lia. Qed.

Lemma u32_range x : 0 <= u32 x < 2 ^ 32.
Proof. unfold u32. apply Z.mod_pos_bound. lia. Qed.

Lemma u8_small x : 0 <= x < 256 -> u8 x = x.
Proof. intros H. unfold u8. change (2 ^ 8) with 256. apply Z.mod_small. lia. Qed.

Lemma u32_small x : 0 <= x < 2 ^ 32 -> u32 x = x.
Proof. intros H. unfold u32. apply Z.mod_small. lia. Qed.

Lemma bits_high v n : 0 <= v < 2 ^ 32 -> 32 <= n -> Z.testbit v n = false.
Proof.
  intros Hv Hn. rewrite <- (Z.mod_small v (2 ^ 32)) by lia.
  apply Z.mod_pow2_bits_high. lia.
Qed.

(** The mask [~(1 << k)] as a [uint32_t]: every bit below 32 but bit [k]. *)
Lemma clear_mask_bits k n : 0 <= k < 32 ->
  Z.testbit (u32 (Z.lnot (2 ^ k))) n = (0 <=? n) && (n <? 32) && negb (n =? k).
Proof.
  intros Hk. unfold u32. rewrite Z.testbit_mod_pow2 by lia.
  destruct (Z.ltb_spec n 0) as [Hneg|Hpos].
  - rewrite (Z.testbit_neg_r _ n) by lia.
    replace (0 <=? n) with false by (symmetry; apply Z.leb_gt; lia).
    now rewrite andb_false_r.
  - rewrite Z.lnot_spec by lia. rewrite Z.pow2_bits_eqb by lia.
    replace (0 <=? n) with true by (symmetry; apply Z.leb_le; lia).
    rewrite (Z.eqb_sym k n). simpl. reflexivity.
Qed.

(** Setting bit [k]. *)
Lemma set_bit_spec v k n : 0 <= k ->
  Z.testbit (Z.lor v (2 ^ k)) n = Z.testbit v n || (n =? k).
Proof.
  intros Hk. rewrite Z.lor_spec, Z.pow2_bits_eqb by lia.
  now rewrite (Z.eqb_sym k n).
Qed.

(** Clearing bit [k] of a 32-bit value. *)
Lemma clear_bit_spec v k n : 0 <= v < 2 ^ 32 -> 0 <= k < 32 ->
  Z.testbit (Z.land v (u32 (Z.lnot (2 ^ k)))) n = Z.testbit v n && negb (n =? k).
Proof.
  intros Hv Hk. rewrite Z.land_spec, clear_mask_bits by lia.
  destruct (Z.ltb_spec n 0) as [Hneg|Hpos].
  - now rewrite (Z.testbit_neg_r _ n) by lia.
  - destruct (Z.ltb_spec n 32) as [Hlt|Hge].
    + replace (0 <=? n) with true by (symmetry; apply Z.leb_le; lia).
      reflexivity.
    + now rewrite (bits_high v n) by lia.
Qed.

Lemma log2_below x : 0 <= x < 2 ^ 32 -> Z.log2 x < 32.
Proof.
  intros Hx. destruct (Z.eq_dec x 0) as [->|Hx0]; [simpl; lia|].
  apply Z.log2_lt_pow2; lia.
Qed.

Lemma below_log2 x : 0 <= x -> Z.log2 x < 32 -> 0 <= x < 2 ^ 32.
Proof.
  intros Hx Hl. split; [assumption|].
  destruct (Z.eq_dec x 0) as [->|Hx0]; [lia|].
  apply Z.log2_lt_pow2; lia.
Qed.

Lemma set_bit_range v k : 0 <= v < 2 ^ 32 -> 0 <= k < 32 ->
  0 <= Z.lor v (2 ^ k) < 2 ^ 32.
Proof.
  intros Hv Hk. assert (0 <= 2 ^ k) by (apply Z.pow_nonneg; lia).
  apply below_log2.
  - apply Z.lor_nonneg. lia.
  - rewrite Z.log2_lor by lia. rewrite Z.log2_pow2 by lia.
    pose proof (log2_below v Hv). lia.
Qed.

Lemma clear_bit_range v k : 0 <= v < 2 ^ 32 ->
  0 <= Z.land v (u32 (Z.lnot (2 ^ k))) < 2 ^ 32.
Proof.
  intros Hv. pose proof (u32_range (Z.lnot (2 ^ k))) as Hm.
  apply below_log2.
  - apply Z.land_nonneg. lia.
  - pose proof (Z.log2_land v (u32 (Z.lnot (2 ^ k)))) as Hl.
    pose proof (log2_below v Hv). lia.
Qed.

(** Bit [n] of the new value, for any starting value and flags. *)
Lemma ddio_val_new_bits v a b n : 0 <= v < 2 ^ 32 ->
  Z.testbit (ddio_val_new v a b) n =
    if n =? 3 then negb (b =? 0)
    else if n =? 7 then negb (a =? 0)
    else Z.testbit v n.
Proof.
  intros Hv. unfold ddio_val_new.
  change SKX_use_allocating_flow_wr_MASK with (2 ^ 7).
  change SKX_nosnoopopwren_MASK with (2 ^ 3).
  assert (Hv7 : 0 <= (if negb (a =? 0) then Z.lor v (2 ^ 7)
                      else Z.land v (u32 (Z.lnot (2 ^ 7)))) < 2 ^ 32).
  { destruct (negb (a =? 0)); [apply set_bit_range | apply clear_bit_range]; lia. }
  destruct (negb (b =? 0)); destruct (negb (a =? 0));
    rewrite ?set_bit_spec, ?clear_bit_spec by lia;
    rewrite ?set_bit_spec, ?clear_bit_spec by lia;
    destruct (Z.eqb_spec n 3) as [->|H3]; simpl;
    rewrite ?orb_true_r, ?orb_false_r, ?andb_true_r, ?andb_false_r; trivial;
    destruct (Z.eqb_spec n 7) as [->|H7]; simpl;
    rewrite ?orb_true_r, ?orb_false_r, ?andb_true_r, ?andb_false_r; trivial.
Qed.

Lemma ddio_val_new_range v a b : 0 <= v < 2 ^ 32 ->
  0 <= ddio_val_new v a b < 2 ^ 32.
Proof.
  intros Hv. unfold ddio_val_new.
  change SKX_use_allocating_flow_wr_MASK with (2 ^ 7).
  change SKX_nosnoopopwren_MASK with (2 ^ 3).
  assert (Hv7 : 0 <= (if negb (a =? 0) then Z.lor v (2 ^ 7)
                      else Z.land v (u32 (Z.lnot (2 ^ 7)))) < 2 ^ 32).
  { destruct (negb (a =? 0)); [apply set_bit_range | apply clear_bit_range]; lia. }
  destruct (negb (b =? 0)); [apply set_bit_range | apply clear_bit_range]; lia.
Qed.

(** ** Configuration space *)

Ltac decide_eqb :=
  repeat match goal with
  | |- context [Z.eqb ?a ?b] =>
    first [ replace (Z.eqb a b) with true by (symmetry; apply Z.eqb_eq; lia)
          | replace (Z.eqb a b) with false by (symmetry; apply Z.eqb_neq; lia) ]
  end.

Lemma bytes_of_long v :
  (v mod 256) mod 256 + ((v / 256) mod 256) mod 256 * 256
  + ((v / 65536) mod 256) mod 256 * 65536
  + ((v / 16777216) mod 256) mod 256 * 16777216 = v mod 4294967296.
Proof. rewrite !Z.mod_mod by lia. Z.div_mod_to_equations; lia. Qed.

(** Reading a register back gives the 32 bits that were stored. *)
Lemma cfg_long_store d pos v : cfg_long (cfg_store_long d pos v) pos = u32 v.
Proof.
  unfold cfg_long, cfg_byte, cfg_store_long; simpl. decide_eqb.
  rewrite !Z.shiftl_mul_pow2, !Z.shiftr_div_pow2 by lia.
  unfold u8, u32.
  change (2 ^ 8) with 256. change (2 ^ 16) with 65536.
  change (2 ^ 24) with 16777216. change (2 ^ 32) with 4294967296.
  apply bytes_of_long.
Qed.

(** A store leaves the bytes outside the register alone. *)
Lemma cfg_byte_store_other d pos v o :
  o < pos \/ pos + 4 <= o ->
  cfg_byte (cfg_store_long d pos v) o = cfg_byte d o.
Proof.
  intros Ho. unfold cfg_byte, cfg_store_long; simpl. decide_eqb. reflexivity.
Qed.

Lemma cfg_long_range d pos : 0 <= cfg_long d pos < 2 ^ 32.
Proof.
  unfold cfg_long, cfg_byte.
  pose proof (u8_range (config d pos)).
  pose proof (u8_range (config d (pos + 1))).
  pose proof (u8_range (config d (pos + 2))).
  pose proof (u8_range (config d (pos + 3))).
  rewrite !Z.shiftl_mul_pow2 by lia.
  change (2 ^ 8) with 256. change (2 ^ 16) with 65536.
  change (2 ^ 24) with 16777216. change (2 ^ 32) with 4294967296.
  lia.
Qed.

Lemma busNumber_store d pos v : busNumber (cfg_store_long d pos v) = busNumber d.
Proof. reflexivity. Qed.

(** Writing perfctrlsts_0 does not change whether a device is a candidate. *)
Lemma candidate_store nic_bus d v :
  candidate nic_bus (cfg_store_long d SKX_PERFCTRLSTS_0 v) = candidate nic_bus d.
Proof.
  unfold candidate, subordinateBus, secondaryBus.
  rewrite !cfg_byte_store_other; [reflexivity | |];
    unfold SKX_PERFCTRLSTS_0, PCI_SECONDARY_BUS, PCI_SUBORDINATE_BUS; lia.
Qed.

(** ** Running the monad *)

Lemma logs_nil w : logs [] w = w.
Proof. destruct w. unfold logs; simpl. now rewrite app_nil_r. Qed.

Lemma logs_logs es1 es2 w : logs es2 (logs es1 w) = logs (es1 ++ es2) w.
Proof. unfold logs; simpl. now rewrite app_assoc. Qed.

Lemma log_logs e w : log e w = logs [e] w.
Proof. reflexivity. Qed.

Lemma devices_logs es w : devices (logs es w) = devices w.
Proof. reflexivity. Qed.

Lemma devices_set_pacc w : devices (set_pacc w) = devices w.
Proof. reflexivity. Qed.

Lemma devices_set_devices l w : devices (set_devices l w) = l.
Proof. reflexivity. Qed.

Ltac simpl_devices :=
  repeat first [ rewrite devices_logs | rewrite devices_set_pacc
               | rewrite devices_set_devices ].

Lemma bind_ret_run {A B : Type} (m : M A) (k : A -> M B) w a w' :
  m w = (Ret a, w') -> bind m k w = k a w'.
Proof. intros H. unfold bind. now rewrite H. Qed.

Lemma bind_exit_run {A B : Type} (m : M A) (k : A -> M B) w status w' :
  m w = (Exit status, w') -> bind m k w = (Exit status, w').
Proof. intros H. unfold bind. now rewrite H. Qed.

(** Run the first call of a sequence with a lemma about that call. *)
Ltac mrun lem :=
  erewrite bind_ret_run by (eapply lem; solve [ eassumption | reflexivity | lia ]);
  cbv beta.

Lemma emit_run e w : emit e w = (Ret tt, logs [e] w).
Proof. reflexivity. Qed.

Lemma printf_run fmt args w : printf fmt args w = (Ret tt, logs [EvPrintf fmt args] w).
Proof. reflexivity. Qed.

Lemma deref_run p d w : devices w !! p = Some d -> deref p w = (Ret d, w).
Proof. intros H. unfold deref. now rewrite H. Qed.

Lemma pci_read_byte_run p pos d w :
  devices w !! p = Some d ->
  pci_read_byte p pos w = (Ret (cfg_byte d pos), logs [EvReadByte p pos] w).
Proof. intros H. unfold pci_read_byte, bind, deref. now rewrite H. Qed.

Lemma pci_read_long_run p pos d w :
  devices w !! p = Some d ->
  pci_read_long p pos w = (Ret (cfg_long d pos), logs [EvReadLong p pos] w).
Proof. intros H. unfold pci_read_long, bind, deref. now rewrite H. Qed.

Lemma pci_write_long_run p pos v d w :
  devices w !! p = Some d ->
  pci_write_long p pos v w =
    (Ret tt, set_devices (<[p := cfg_store_long d pos v]> (devices w))
               (logs [EvWriteLong p pos v] w)).
Proof. intros H. unfold pci_write_long, bind, deref. now rewrite H. Qed.

Lemma print_register_run title val w :
  print_register title val w = (Ret tt, logs (register_report title val) w).
Proof.
  unfold print_register, register_report, bind, printf, emit, log, logs; simpl.
  now rewrite <- !app_assoc.
Qed.

Lemma ensure_pci_access_run w :
  ensure_pci_access w = (Ret tt, logs (init_events w) (set_pacc w)).
Proof.
  unfold ensure_pci_access, init_events. destruct w as [pa ds tr]; simpl.
  destruct pa; simpl.
  - unfold logs, set_pacc; simpl. now rewrite app_nil_r.
  - unfold init_pci_access, bind, emit, log, logs, set_pacc; simpl.
    now rewrite <- !app_assoc.
Qed.

(** The loop computes [scan] and calls libpci three times per device. *)
Lemma find_ddio_loop_run nic_bus n : forall p best_match lowest_bus w,
  (p + n)%nat = length (devices w) ->
  find_ddio_loop nic_bus n p best_match lowest_bus w =
    (Ret (scan nic_bus (drop p (devices w)) p best_match lowest_bus),
     logs (scan_events n p) w).
Proof.
  induction n as [|n IH]; intros p best_match lowest_bus w Hlen.
  - simpl. rewrite drop_ge by lia. simpl. now rewrite logs_nil.
  - destruct (lookup_lt_is_Some_2 (devices w) p) as [d Hd]; [lia|].
    rewrite (drop_S _ _ _ Hd).
    cbn [find_ddio_loop scan scan_events].
    unfold pci_fill_info.
    mrun emit_run. mrun pci_read_byte_run. mrun pci_read_byte_run.
    mrun deref_run.
    rewrite !logs_logs.
    unfold candidate, subordinateBus, secondaryBus.
    destruct (covers _ _ _); simpl andb.
    + destruct (busNumber d <? lowest_bus);
        rewrite IH by (simpl; lia); simpl devices; rewrite logs_logs; reflexivity.
    + rewrite IH by (simpl; lia). simpl devices. rewrite logs_logs. reflexivity.
Qed.

Lemma find_ddio_device_run nic_bus w :
  pacc w = true ->
  find_ddio_device nic_bus w =
    (Ret (scan nic_bus (devices w) 0 None 0xff),
     logs (find_events nic_bus (devices w)) w).
Proof.
  intros Hp. unfold find_ddio_device, find_events.
  assert (Hn : pacc_devices w = (Ret (length (devices w)), w)).
  { unfold pacc_devices. now rewrite Hp. }
  mrun Hn.
  mrun (find_ddio_loop_run nic_bus (length (devices w)) 0%nat None 0xff w eq_refl).
  rewrite drop_0.
  destruct (scan nic_bus (devices w) 0 None 0xff); unfold bind, printf, emit, ret;
    simpl; rewrite ?log_logs, ?logs_logs, ?app_nil_r; reflexivity.
Qed.

(** ** The resolver *)

Lemma candidate_iff nic_bus d :
  candidate nic_bus d = true <->
  subordinateBus d = nic_bus /\ secondaryBus d <= nic_bus.
Proof.
  unfold candidate, covers. rewrite !andb_true_iff.
  rewrite Z.eqb_eq, Z.leb_le, Z.geb_le. intuition lia.
Qed.

Lemma busNumber_range d : 0 <= busNumber d < 256.
Proof. apply u8_range. Qed.

Section Scan.

Variable nic_bus : Z.

Lemma scan_spec l : forall p best_match lowest_bus,
  match scan nic_bus l p best_match lowest_bus with
  | None => best_match = None /\ none_below nic_bus lowest_bus l
  | Some i =>
    (best_match = Some i /\ none_below nic_bus lowest_bus l)
    \/ exists j d, i = (p + j)%nat /\ busNumber d < lowest_bus
                   /\ first_lowest nic_bus l j d
  end.
Proof.
  induction l as [|d rest IH]; intros p best_match lowest_bus.
  - simpl. destruct best_match as [i|].
    + left. split; [reflexivity|]. intros j d Hj. destruct j; discriminate.
    + split; [reflexivity|]. intros j d Hj. destruct j; discriminate.
  - simpl. destruct (candidate nic_bus d && (busNumber d <? lowest_bus)) eqn:Hsel.
    + apply andb_true_iff in Hsel as [Hcand Hlow]. apply Z.ltb_lt in Hlow.
      specialize (IH (S p) (Some p) (busNumber d)).
      destruct (scan nic_bus rest (S p) (Some p) (busNumber d)) as [i|].
      * right. destruct IH as [[Hi Hrest]|(j & d2 & Hi & Hlt & Hj & Hc2 & Hmin & Hfirst)].
        -- injection Hi as <-. exists 0%nat, d.
           split; [lia|]. split; [assumption|].
           split; [reflexivity|]. split; [assumption|]. split.
           ++ intros [|j'] d' Hj' Hc'; simpl in Hj'.
              ** injection Hj' as <-. lia.
              ** eapply Hrest; eassumption.
           ++ intros j' d' Hj'. lia.
        -- exists (S j), d2.
           split; [lia|]. split; [lia|].
           split; [exact Hj|]. split; [assumption|]. split.
           ++ intros [|j'] d' Hj' Hc'; simpl in Hj'.
              ** injection Hj' as <-. lia.
              ** eapply Hmin; eassumption.
           ++ intros [|j'] d' Hlt' Hj' Hc'; simpl in Hj'.
              ** injection Hj' as <-. lia.
              ** eapply Hfirst; try eassumption. lia.
      * destruct IH as [Hi _]. discriminate.
    + assert (Hd : candidate nic_bus d = true -> lowest_bus <= busNumber d).
      { intros Hc. rewrite Hc in Hsel. simpl in Hsel.
        apply Z.ltb_ge in Hsel. exact Hsel. }
      specialize (IH (S p) best_match lowest_bus).
      destruct (scan nic_bus rest (S p) best_match lowest_bus) as [i|].
      * destruct IH as [[Hi Hrest]|(j & d2 & Hi & Hlt & Hj & Hc2 & Hmin & Hfirst)].
        -- left. split; [assumption|].
           intros [|j'] d' Hj' Hc'; simpl in Hj'.
           ++ injection Hj' as <-. auto.
           ++ eapply Hrest; eassumption.
        -- right. exists (S j), d2.
           split; [lia|]. split; [assumption|].
           split; [exact Hj|]. split; [assumption|]. split.
           ++ intros [|j'] d' Hj' Hc'; simpl in Hj'.
              ** injection Hj' as <-. specialize (Hd Hc'). lia.
              ** eapply Hmin; eassumption.
           ++ intros [|j'] d' Hlt' Hj' Hc'; simpl in Hj'.
              ** injection Hj' as <-. specialize (Hd Hc'). lia.
              ** eapply Hfirst; try eassumption. lia.
      * destruct IH as [Hi Hrest]. split; [assumption|].
        intros [|j'] d' Hj' Hc'; simpl in Hj'.
        -- injection Hj' as <-. auto.
        -- eapply Hrest; eassumption.
Qed.

(** What the whole scan returns. *)
Lemma scan_found l p :
  scan nic_bus l 0 None 0xff = Some p ->
  exists d, busNumber d < 0xff /\ first_lowest nic_bus l p d.
Proof.
  intros H. pose proof (scan_spec l 0%nat None 0xff) as S. rewrite H in S.
  destruct S as [[Hi _]|(j & d & -> & Hlt & Hfl)]; [discriminate|].
  exists d. split; assumption.
Qed.

Lemma scan_none l :
  scan nic_bus l 0 None 0xff = None <-> none_below nic_bus 0xff l.
Proof.
  split.
  - intros H. pose proof (scan_spec l 0%nat None 0xff) as S. rewrite H in S.
    apply S.
  - intros Hnb. destruct (scan nic_bus l 0 None 0xff) as [p|] eqn:H; [|reflexivity].
    apply scan_found in H as (d & Hlt & Hj & Hc & _).
    specialize (Hnb _ _ Hj Hc). lia.
Qed.

End Scan.

(** [find_ddio_device] returns once [pacc] is set. *)
Lemma find_ddio_device_returns nic_bus w :
  pacc w = true ->
  exists found, fst (find_ddio_device nic_bus w) = Ret found.
Proof. intros Hp. rewrite find_ddio_device_run by assumption. eauto. Qed.

(** A device the resolver returns is a candidate: its subordinate bus is
    the target and its secondary bus does not exceed it. *)
Lemma find_ddio_device_sound nic_bus w p :
  pacc w = true ->
  fst (find_ddio_device nic_bus w) = Ret (Some p) ->
  exists d, devices w !! p = Some d
            /\ secondaryBus d <= nic_bus /\ subordinateBus d = nic_bus.
Proof.
  intros Hp. rewrite find_ddio_device_run by assumption. simpl.
  intros [= H]. apply scan_found in H as (d & _ & Hj & Hc & _).
  apply candidate_iff in Hc. exists d. intuition.
Qed.

(** The device the resolver returns is on the lowest bus of all
    candidates, and it is the first device of the list on that bus. *)
Lemma find_ddio_device_lowest nic_bus w p :
  pacc w = true ->
  fst (find_ddio_device nic_bus w) = Ret (Some p) ->
  exists d, busNumber d < 0xff /\ first_lowest nic_bus (devices w) p d.
Proof.
  intros Hp. rewrite find_ddio_device_run by assumption. simpl.
  intros [= H]. now apply scan_found.
Qed.

(** The resolver finds a bridge when some candidate is on a bus below 0xff. *)
Lemma find_ddio_device_complete nic_bus w :
  pacc w = true ->
  resolvable nic_bus (devices w) ->
  exists p, fst (find_ddio_device nic_bus w) = Ret (Some p).
Proof.
  intros Hp (j & d & Hj & Hc & Hlt).
  rewrite find_ddio_device_run by assumption. simpl.
  destruct (scan nic_bus (devices w) 0 None 255) as [p|] eqn:H; [eauto|].
  apply scan_none in H. specialize (H _ _ Hj Hc). lia.
Qed.

(** It reports not-found exactly when every candidate is on bus 0xff. *)
Lemma find_ddio_device_not_found nic_bus w :
  pacc w = true ->
  fst (find_ddio_device nic_bus w) = Ret None <->
  (forall j d, devices w !! j = Some d -> candidate nic_bus d = true ->
     busNumber d = 0xff).
Proof.
  intros Hp. rewrite find_ddio_device_run by assumption. simpl. split.
  - intros [= H]. apply scan_none in H. intros j d Hj Hc.
    pose proof (H _ _ Hj Hc). pose proof (busNumber_range d). lia.
  - intros H. f_equal. apply scan_none. intros j d Hj Hc.
    rewrite (H _ _ Hj Hc). lia.
Qed.

(** C1, at the input where the code departs from it: the second device of
    [world_bus_ff] has subordinate bus 0x17 and secondary bus 0x00, so the
    enumeration holds a record that covers bus 0x17, and the resolver still
    returns NULL and prints that it found no root port, because the record
    is on bus 0xff, the start value of [lowest_bus]. *)
Theorem find_ddio_device_misses_bus_ff :
  (exists d, devices world_bus_ff !! 1%nat = Some d
             /\ secondaryBus d <= 0x17 /\ subordinateBus d = 0x17
             /\ busNumber d = 0xff)
  /\ fst (find_ddio_device 0x17 world_bus_ff) = Ret None
  /\ In (EvPrintf "Could not find the proper PCIe root!\n" [])
       (trace (snd (find_ddio_device 0x17 world_bus_ff))).
Proof.
  split; [|split].
  - eexists. split; [reflexivity|]. vm_compute. intuition discriminate.
  - reflexivity.
  - vm_compute. intuition.
Qed.

(** The tie-break of the spec's scenario: with candidates for bus 0x17 on
    buses 0x10 and 0x05, in this order, the resolver returns the second. *)
Lemma find_ddio_device_tie_break :
  fst (find_ddio_device 0x17 world_tie) = Ret (Some 1%nat)
  /\ (busNumber <$> devices world_tie !! 1%nat) = Some 0x05.
Proof. split; reflexivity. Qed.

(** C2, at the input where the code departs from it: the two devices of
    [world_two_ff] are both candidates for bus 0x17, both on bus 0xff, and
    the resolver selects neither of them. *)
Theorem find_ddio_device_two_on_bus_ff :
  (forall p d, devices world_two_ff !! p = Some d ->
     candidate 0x17 d = true /\ busNumber d = 0xff)
  /\ length (devices world_two_ff) = 2%nat
  /\ fst (find_ddio_device 0x17 world_two_ff) = Ret None.
Proof.
  split; [|split; reflexivity].
  intros [|[|p]] d H; simpl in H; try discriminate;
    injection H as <-; split; reflexivity.
Qed.

(** C5: a bridge [find_ddio_device] returns is on a bus below 0xff; and
    when every candidate for the target bus is on bus 0xff, so in
    particular when the only candidate is, it returns NULL after printing
    that no root port was found. *)
Theorem find_ddio_device_below_ff (w : world) (nic_bus : Z) :
  pacc w = true ->
  (forall p, fst (find_ddio_device nic_bus w) = Ret (Some p) ->
     exists d, devices w !! p = Some d /\ busNumber d < 0xff)
  /\ ((forall j d, devices w !! j = Some d ->
         subordinateBus d = nic_bus -> secondaryBus d <= nic_bus ->
         busNumber d = 0xff) ->
      find_ddio_device nic_bus w =
        (Ret None,
         logs (scan_events (length (devices w)) 0
               ++ [EvPrintf "Could not find the proper PCIe root!\n" []]) w)).
Proof.
  intros Hp. split.
  - intros p H. apply find_ddio_device_lowest in H as (d & Hlt & Hj & _); eauto.
  - intros Hall.
    assert (Hnone : fst (find_ddio_device nic_bus w) = Ret None).
    { apply find_ddio_device_not_found; [assumption|].
      intros j d Hj Hc. apply candidate_iff in Hc as [Hs Hl]. eauto. }
    rewrite find_ddio_device_run in * by assumption. simpl in Hnone.
    injection Hnone as Hnone. unfold find_events. now rewrite Hnone.
Qed.

Lemma find_ddio_device_below_ff_witness :
  pacc world_bus_ff = true
  /\ fst (find_ddio_device 0x17 world_bus_ff) = Ret None.
Proof.
  split; [reflexivity|].
  destruct (find_ddio_device_below_ff world_bus_ff 0x17 eq_refl) as [_ H].
  rewrite H; [reflexivity|].
  intros [|[|j]] d Hj; simpl in Hj; try discriminate; injection Hj as <-.
  - intros Hs. vm_compute in Hs. discriminate.
  - intros _ _. reflexivity.
Defined.

(** ** The register editor *)

(** Replacing a device by one with the same bus number and the same
    bus-range test does not change what the scan returns. *)
Lemma scan_insert nic_bus d' : forall l p q best_match lowest_bus d,
  l !! p = Some d ->
  candidate nic_bus d' = candidate nic_bus d ->
  busNumber d' = busNumber d ->
  scan nic_bus (<[p := d']> l) q best_match lowest_bus
  = scan nic_bus l q best_match lowest_bus.
Proof.
  induction l as [|x rest IH]; intros p q best_match lowest_bus d Hp Hc Hb.
  - reflexivity.
  - destruct p as [|p]; simpl in Hp.
    + injection Hp as ->. simpl. now rewrite Hc, Hb.
    + simpl. now rewrite !(IH p _ _ _ d Hp Hc Hb).
Qed.

Lemma land_pow2 v k : 0 <= k ->
  Z.land v (2 ^ k) = if Z.testbit v k then 2 ^ k else 0.
Proof.
  intros Hk. apply Z.bits_inj'. intros n Hn.
  rewrite Z.land_spec, Z.pow2_bits_eqb by lia.
  destruct (Z.eqb_spec k n) as [<-|Hne].
  - destruct (Z.testbit v k); simpl.
    + now rewrite Z.pow2_bits_true.
    + now rewrite Z.bits_0.
  - rewrite andb_false_r. destruct (Z.testbit v k).
    + now rewrite Z.pow2_bits_false.
    + now rewrite Z.bits_0.
Qed.

Lemma ddio_configure_run nic_bus a b w p d :
  scan nic_bus (devices w) 0 None 0xff = Some p ->
  devices w !! p = Some d ->
  ddio_configure nic_bus a b w =
    (Ret tt,
     set_devices
       (<[p := cfg_store_long d SKX_PERFCTRLSTS_0
                 (ddio_val_new (cfg_long d SKX_PERFCTRLSTS_0) a b)]> (devices w))
       (logs (init_events w ++ find_events nic_bus (devices w)
              ++ configure_events p (cfg_long d SKX_PERFCTRLSTS_0)
                   (ddio_val_new (cfg_long d SKX_PERFCTRLSTS_0) a b)
                   (ddio_val_new (cfg_long d SKX_PERFCTRLSTS_0) a b))
          (set_pacc w))).
Proof.
  intros Hscan Hd. unfold ddio_configure.
  mrun ensure_pci_access_run. mrun find_ddio_device_run.
  simpl_devices. rewrite Hscan.
  mrun pci_read_long_run. mrun print_register_run. mrun pci_write_long_run.
  set (vb := cfg_long d SKX_PERFCTRLSTS_0).
  set (vn := ddio_val_new vb a b).
  assert (Hvn : 0 <= vn < 2 ^ 32).
  { apply ddio_val_new_range. apply cfg_long_range. }
  erewrite bind_ret_run.
  2:{ eapply pci_read_long_run. simpl_devices.
      apply list_lookup_insert_eq. eapply lookup_lt_Some; eassumption. }
  cbv beta. rewrite cfg_long_store, (u32_small vn Hvn).
  mrun print_register_run.
  rewrite printf_run. unfold configure_events, set_devices, logs; simpl.
  rewrite <- !app_assoc. reflexivity.
Qed.

Lemma ddio_configure_not_found_run nic_bus a b w :
  scan nic_bus (devices w) 0 None 0xff = None ->
  ddio_configure nic_bus a b w =
    (Exit 1,
     logs (init_events w ++ find_events nic_bus (devices w) ++ [no_device])
       (set_pacc w)).
Proof.
  intros Hscan. unfold ddio_configure.
  mrun ensure_pci_access_run. mrun find_ddio_device_run.
  simpl_devices. rewrite Hscan. mrun printf_run.
  unfold exit. rewrite ?logs_logs, <- ?app_assoc. reflexivity.
Qed.

Lemma ddio_status_run nic_bus w p d :
  scan nic_bus (devices w) 0 None 0xff = Some p ->
  devices w !! p = Some d ->
  ddio_status nic_bus w =
    (Ret (if negb (Z.land (cfg_long d SKX_PERFCTRLSTS_0)
                     SKX_use_allocating_flow_wr_MASK =? 0)
          then 1 else 0),
     logs (init_events w ++ find_events nic_bus (devices w)
           ++ [EvReadLong p SKX_PERFCTRLSTS_0]
           ++ status_report (cfg_long d SKX_PERFCTRLSTS_0))
       (set_pacc w)).
Proof.
  intros Hscan Hd. unfold ddio_status.
  mrun ensure_pci_access_run. mrun find_ddio_device_run.
  simpl_devices. rewrite Hscan.
  mrun pci_read_long_run. mrun printf_run. mrun printf_run. mrun printf_run.
  rewrite ?logs_logs, <- ?app_assoc. unfold status_report.
  destruct (negb _); reflexivity.
Qed.

Lemma ddio_status_not_found_run nic_bus w :
  scan nic_bus (devices w) 0 None 0xff = None ->
  ddio_status nic_bus w =
    (Exit 1,
     logs (init_events w ++ find_events nic_bus (devices w) ++ [no_device])
       (set_pacc w)).
Proof.
  intros Hscan. unfold ddio_status.
  mrun ensure_pci_access_run. mrun find_ddio_device_run.
  simpl_devices. rewrite Hscan. mrun printf_run.
  unfold exit. rewrite ?logs_logs, <- ?app_assoc. reflexivity.
Qed.

(** ** main *)

Lemma init_pci_access_run w :
  init_pci_access w = (Ret tt, logs [EvAlloc; EvInit; EvScanBus] (set_pacc w)).
Proof.
  unfold init_pci_access, bind, emit, log, logs, set_pacc; simpl.
  now rewrite <- !app_assoc.
Qed.

Lemma usage_run argv0 w : usage argv0 w = (Ret tt, logs (usage_events argv0) w).
Proof.
  unfold usage, usage_events, bind, printf, emit, log, logs; simpl.
  now rewrite <- !app_assoc.
Qed.

Lemma print_dev_info_run p d w :
  devices w !! p = Some d ->
  print_dev_info (Some p) w = (Ret tt, logs (dev_info_events d) w).
Proof.
  intros Hd. unfold print_dev_info. mrun deref_run.
  unfold dev_info_events, pci_lookup_name, bind, printf, emit, ret, log, logs; simpl.
  now rewrite <- !app_assoc.
Qed.

Lemma parameter_report_run nic_bus a b {A : Type} (k : M A) w :
  (printf "Configuration parameters:\n" [] ;>
   printf "  Port number (nic_bus): 0x%02x (%d)\n" [AInt nic_bus; AInt nic_bus] ;>
   printf "  Use_Allocating_Flow_Wr (DDIO): %d (%s)\n"
     [AInt a; AStr (if negb (a =? 0) then "enable" else "disable")] ;>
   printf "  NoSnoopOpWrEn (NS): %d (%s)\n"
     [AInt b; AStr (if negb (b =? 0) then "mem write" else "LLC write")] ;>
   k) w
  = k (logs (parameter_report nic_bus a b) w).
Proof.
  do 4 mrun printf_run. rewrite !logs_logs. reflexivity.
Qed.

Lemma main_configure_not_found_run nic_bus a b w :
  scan nic_bus (devices w) 0 None 0xff = None ->
  main_configure nic_bus a b w =
    (Exit 1,
     logs (parameter_report nic_bus a b ++ [EvAlloc; EvInit; EvScanBus]
           ++ find_events nic_bus (devices w) ++ [no_device])
       (set_pacc w)).
Proof.
  intros Hscan. unfold main_configure. rewrite parameter_report_run.
  mrun init_pci_access_run. mrun find_ddio_device_run.
  simpl_devices. rewrite Hscan.
  erewrite bind_exit_run; [reflexivity|].
  unfold print_dev_info. mrun printf_run. unfold exit.
  unfold logs, set_pacc, no_device; simpl. now rewrite <- !app_assoc.
Qed.

Lemma main_configure_run nic_bus a b w p d :
  scan nic_bus (devices w) 0 None 0xff = Some p ->
  devices w !! p = Some d ->
  main_configure nic_bus a b w =
    (Ret 0,
     set_devices
       (<[p := cfg_store_long d SKX_PERFCTRLSTS_0
                 (ddio_val_new (cfg_long d SKX_PERFCTRLSTS_0) a b)]> (devices w))
       (logs (parameter_report nic_bus a b ++ [EvAlloc; EvInit; EvScanBus]
              ++ find_events nic_bus (devices w) ++ dev_info_events d
              ++ find_events nic_bus (devices w)
              ++ configure_events p (cfg_long d SKX_PERFCTRLSTS_0)
                   (ddio_val_new (cfg_long d SKX_PERFCTRLSTS_0) a b)
                   (ddio_val_new (cfg_long d SKX_PERFCTRLSTS_0) a b)
              ++ [EvCleanup])
          (set_pacc w))).
Proof.
  intros Hscan Hd. unfold main_configure. rewrite parameter_report_run.
  mrun init_pci_access_run. mrun find_ddio_device_run.
  simpl_devices. rewrite Hscan.
  mrun print_dev_info_run.
  erewrite bind_ret_run.
  2:{ eapply ddio_configure_run; simpl_devices; eassumption. }
  cbv beta. unfold pci_cleanup. mrun emit_run.
  unfold ret, init_events, set_devices, logs, set_pacc; simpl.
  rewrite <- !app_assoc. reflexivity.
Qed.

Lemma main_usage_run argv w :
  length argv <> 4%nat ->
  main argv w = (Ret 1, logs (usage_events (nth 0 argv EmptyString)) w).
Proof.
  intros Hlen. unfold main. cbv zeta.
  replace (Z.of_nat (length argv) =? 4) with false
    by (symmetry; apply Z.eqb_neq; lia).
  change (negb false) with true. cbv iota. mrun usage_run. reflexivity.
Qed.

Lemma main_flag_error_run argv w :
  length argv = 4%nat ->
  u8 (atoi (nth 2 argv EmptyString)) > 1 \/ u8 (atoi (nth 3 argv EmptyString)) > 1 ->
  main argv w = (Ret 1, logs [flag_error] w).
Proof.
  intros Hlen Hbad. unfold main. cbv zeta. rewrite Hlen.
  change (negb (Z.of_nat 4 =? 4)) with false. cbv iota.
  replace ((u8 (atoi (nth 2 argv EmptyString)) >? 1)
           || (u8 (atoi (nth 3 argv EmptyString)) >? 1)) with true.
  - mrun printf_run. reflexivity.
  - symmetry. apply orb_true_iff. rewrite !Z.gtb_ltb, !Z.ltb_lt. lia.
Qed.

Lemma main_valid_run argv w :
  length argv = 4%nat ->
  u8 (atoi (nth 2 argv EmptyString)) <= 1 ->
  u8 (atoi (nth 3 argv EmptyString)) <= 1 ->
  main argv w =
    main_configure (u8 (strtol (nth 1 argv EmptyString) 0))
      (u8 (atoi (nth 2 argv EmptyString)))
      (u8 (atoi (nth 3 argv EmptyString))) w.
Proof.
  intros Hlen H2 H3. unfold main. cbv zeta. rewrite Hlen.
  change (negb (Z.of_nat 4 =? 4)) with false. cbv iota.
  replace ((u8 (atoi (nth 2 argv EmptyString)) >? 1)
           || (u8 (atoi (nth 3 argv EmptyString)) >? 1)) with false.
  - reflexivity.
  - symmetry. apply orb_false_iff. rewrite !Z.gtb_ltb, !Z.ltb_ge. lia.
Qed.

(** ** The new register value *)

(** C3: for every 32-bit register value and every pair of flags, bit 7 of
    the value the write path computes is the truth value of
    [use_allocating_flow_wr] and bit 3 is the truth value of
    [nosnoopopwren]; from 0x00000000 with flags (1, 0) the new value is
    0x00000080, from 0x00000088 with flags (0, 0) it is 0x00000000. *)
Theorem ddio_val_new_sets_flags (v a b : Z) :
  0 <= v < 2 ^ 32 ->
  Z.testbit (ddio_val_new v a b) 7 = negb (a =? 0)
  /\ Z.testbit (ddio_val_new v a b) 3 = negb (b =? 0)
  /\ ddio_val_new 0x00000000 1 0 = 0x00000080
  /\ ddio_val_new 0x00000088 0 0 = 0x00000000.
Proof.
  intros Hv. rewrite !ddio_val_new_bits by assumption. simpl.
  repeat split; reflexivity.
Qed.

Lemma ddio_val_new_sets_flags_witness :
  0 <= 0x12345678 < 2 ^ 32
  /\ Z.testbit (ddio_val_new 0x12345678 1 0) 7 = true
  /\ Z.testbit (ddio_val_new 0x12345678 1 0) 3 = false.
Proof.
  assert (H : 0 <= 0x12345678 < 2 ^ 32) by lia.
  split; [exact H|].
  destruct (ddio_val_new_sets_flags 0x12345678 1 0 H) as (H7 & H3 & _).
  split; [exact H7 | exact H3].
Defined.

(** The mask of the two control bits. *)
Lemma control_mask_bits n :
  Z.testbit (u32 (Z.lnot (Z.lor SKX_use_allocating_flow_wr_MASK SKX_nosnoopopwren_MASK))) n
  = (0 <=? n) && (n <? 32) && negb ((n =? 7) || (n =? 3)).
Proof.
  change SKX_use_allocating_flow_wr_MASK with (2 ^ 7).
  change SKX_nosnoopopwren_MASK with (2 ^ 3).
  unfold u32. rewrite Z.testbit_mod_pow2 by lia.
  destruct (Z.ltb_spec n 0) as [Hneg|Hpos].
  - rewrite (Z.testbit_neg_r _ n) by lia.
    replace (0 <=? n) with false by (symmetry; apply Z.leb_gt; lia).
    now rewrite andb_false_r.
  - rewrite Z.lnot_spec, Z.lor_spec, !Z.pow2_bits_eqb by lia.
    replace (0 <=? n) with true by (symmetry; apply Z.leb_le; lia).
    rewrite (Z.eqb_sym 7 n), (Z.eqb_sym 3 n). reflexivity.
Qed.

(** C4: for every 32-bit register value and every pair of flags, the new
    value agrees with the old one on every bit other than bits 3 and 7; it
    is the old value with the two control bits masked out and the chosen
    ones set, never a value built from the flags alone. *)
Theorem ddio_val_new_keeps_other_bits (v a b : Z) :
  0 <= v < 2 ^ 32 ->
  (forall n, n <> 3 -> n <> 7 ->
     Z.testbit (ddio_val_new v a b) n = Z.testbit v n)
  /\ ddio_val_new v a b =
       Z.lor
         (Z.land v (u32 (Z.lnot (Z.lor SKX_use_allocating_flow_wr_MASK
                                   SKX_nosnoopopwren_MASK))))
         (Z.lor (if negb (a =? 0) then SKX_use_allocating_flow_wr_MASK else 0)
                (if negb (b =? 0) then SKX_nosnoopopwren_MASK else 0)).
Proof.
  intros Hv. split.
  - intros n H3 H7. rewrite ddio_val_new_bits by assumption.
    destruct (Z.eqb_spec n 3); [contradiction|].
    destruct (Z.eqb_spec n 7); [contradiction|]. reflexivity.
  - apply Z.bits_inj'. intros n Hn.
    rewrite ddio_val_new_bits by assumption.
    rewrite !Z.lor_spec, Z.land_spec, control_mask_bits.
    change SKX_use_allocating_flow_wr_MASK with (2 ^ 7).
    change SKX_nosnoopopwren_MASK with (2 ^ 3).
    replace (0 <=? n) with true by (symmetry; apply Z.leb_le; lia).
    assert (Hbit : forall (c : bool) k, 0 <= k ->
              Z.testbit (if c then 2 ^ k else 0) n = c && (n =? k)).
    { intros c k Hk. destruct c; simpl.
      - rewrite Z.pow2_bits_eqb by lia. apply Z.eqb_sym.
      - apply Z.bits_0. }
    rewrite !Hbit by lia.
    destruct (Z.eqb_spec n 3) as [->|N3].
    { change (3 =? 7) with false. change (3 <? 32) with true.
      destruct (Z.testbit v 3), (negb (a =? 0)), (negb (b =? 0)); reflexivity. }
    destruct (Z.eqb_spec n 7) as [->|N7].
    { change (7 <? 32) with true.
      destruct (Z.testbit v 7), (negb (a =? 0)), (negb (b =? 0)); reflexivity. }
    destruct (Z.ltb_spec n 32) as [Hlt|Hge].
    + destruct (Z.testbit v n), (negb (a =? 0)), (negb (b =? 0)); reflexivity.
    + rewrite (bits_high v n) by lia.
      destruct (negb (a =? 0)), (negb (b =? 0)); reflexivity.
Qed.

Lemma ddio_val_new_keeps_other_bits_witness :
  0 <= 0xffffffff < 2 ^ 32
  /\ ddio_val_new 0xffffffff 0 0 = 0xffffff77
  /\ Z.testbit (ddio_val_new 0xffffffff 0 0) 31 = true.
Proof.
  assert (H : 0 <= 0xffffffff < 2 ^ 32) by lia.
  split; [exact H|].
  destruct (ddio_val_new_keeps_other_bits 0xffffffff 0 0 H) as [Hbits Heq].
  split.
  - rewrite Heq. reflexivity.
  - rewrite (Hbits 31) by lia. reflexivity.
Defined.

(** Applying the same flags twice gives the value of applying them once. *)
Lemma ddio_val_new_idempotent v a b :
  0 <= v < 2 ^ 32 ->
  ddio_val_new (ddio_val_new v a b) a b = ddio_val_new v a b.
Proof.
  intros Hv. apply Z.bits_inj'. intros n Hn.
  rewrite (ddio_val_new_bits (ddio_val_new v a b))
    by (apply ddio_val_new_range; assumption).
  rewrite !ddio_val_new_bits by assumption.
  destruct (n =? 3); [reflexivity|]. destruct (n =? 7); reflexivity.
Qed.

(** ** Round trip through the register *)

Lemma resolvable_scan nic_bus l :
  resolvable nic_bus l ->
  exists p d, scan nic_bus l 0 None 0xff = Some p /\ l !! p = Some d
              /\ candidate nic_bus d = true /\ busNumber d < 0xff.
Proof.
  intros (j & d & Hj & Hc & Hlt).
  destruct (scan nic_bus l 0 None 0xff) as [p|] eqn:H.
  - apply scan_found in H as (d' & Hlt' & Hp & Hc' & _). eauto 10.
  - apply scan_none in H. specialize (H _ _ Hj Hc). lia.
Qed.

(** [ddio_configure] writes the value computed from the value it read, and
    a later [ddio_status] on the same bus reads that value back. *)
Lemma ddio_configure_then_status nic_bus a b w :
  resolvable nic_bus (devices w) ->
  exists p d w1 w2,
    scan nic_bus (devices w) 0 None 0xff = Some p
    /\ devices w !! p = Some d
    /\ ddio_configure nic_bus a b w = (Ret tt, w1)
    /\ observed p w1 = Some (ddio_val_new (cfg_long d SKX_PERFCTRLSTS_0) a b)
    /\ ddio_status nic_bus w1 = (Ret (if negb (a =? 0) then 1 else 0), w2)
    /\ trace w2 = trace w1 ++ find_events nic_bus (devices w1)
                  ++ [EvReadLong p SKX_PERFCTRLSTS_0]
                  ++ status_report (ddio_val_new (cfg_long d SKX_PERFCTRLSTS_0) a b).
Proof.
  intros Hres. destruct (resolvable_scan _ _ Hres) as (p & d & Hscan & Hd & _).
  set (vn := ddio_val_new (cfg_long d SKX_PERFCTRLSTS_0) a b).
  assert (Hvn : 0 <= vn < 2 ^ 32).
  { apply ddio_val_new_range. apply cfg_long_range. }
  set (d' := cfg_store_long d SKX_PERFCTRLSTS_0 vn).
  assert (Hd' : <[p := d']> (devices w) !! p = Some d').
  { apply list_lookup_insert_eq. eapply lookup_lt_Some; eassumption. }
  assert (Hval : cfg_long d' SKX_PERFCTRLSTS_0 = vn).
  { unfold d'. rewrite cfg_long_store. now apply u32_small. }
  assert (Hscan' : scan nic_bus (<[p := d']> (devices w)) 0 None 0xff = Some p).
  { rewrite (scan_insert nic_bus d' _ p 0%nat None 0xff d Hd); [assumption| |].
    - apply candidate_store.
    - apply busNumber_store. }
  pose proof (ddio_configure_run nic_bus a b w p d Hscan Hd) as Hc.
  fold vn in Hc. fold d' in Hc.
  set (w1 := set_devices (<[p := d']> (devices w)) _) in Hc.
  assert (Hs := ddio_status_run nic_bus w1 p d' Hscan' Hd').
  rewrite Hval in Hs.
  assert (Hret : (if negb (Z.land vn SKX_use_allocating_flow_wr_MASK =? 0)
                  then 1 else 0) = if negb (a =? 0) then 1 else 0).
  { change SKX_use_allocating_flow_wr_MASK with (2 ^ 7).
    rewrite land_pow2 by lia. unfold vn.
    rewrite ddio_val_new_bits by apply cfg_long_range. simpl.
    destruct (negb (a =? 0)); reflexivity. }
  rewrite Hret in Hs.
  eexists p, d, w1, _. split; [exact Hscan|]. split; [exact Hd|].
  split; [exact Hc|]. split.
  { unfold observed, w1. simpl_devices. rewrite Hd'. now rewrite Hval. }
  split; [exact Hs|]. reflexivity.
Qed.

(** C7: on a simulated register, whatever it held before,
    [ddio_configure] with flags (1, 0) followed by [ddio_status] on the
    same bus reads a value whose bit 7 is set and whose bit 3 is clear:
    [ddio_status] returns 1 and prints 0x80 for Use_Allocating_Flow_Wr and
    0 for NoSnoopOpWrEn. *)
Theorem ddio_round_trip (w : world) (nic_bus : Z) :
  resolvable nic_bus (devices w) ->
  exists p w1 w2 val,
    ddio_configure nic_bus 1 0 w = (Ret tt, w1)
    /\ ddio_status nic_bus w1 = (Ret 1, w2)
    /\ observed p w1 = Some val
    /\ trace w2 = trace w1 ++ find_events nic_bus (devices w1)
                  ++ [EvReadLong p SKX_PERFCTRLSTS_0] ++ status_report val
    /\ Z.testbit val 7 = true /\ Z.testbit val 3 = false
    /\ Z.land val SKX_use_allocating_flow_wr_MASK = 0x80
    /\ Z.land val SKX_nosnoopopwren_MASK = 0.
Proof.
  intros Hres.
  destruct (ddio_configure_then_status nic_bus 1 0 w Hres)
    as (p & d & w1 & w2 & _ & _ & Hc & Ho & Hs & Ht).
  exists p, w1, w2, (ddio_val_new (cfg_long d SKX_PERFCTRLSTS_0) 1 0).
  pose proof (cfg_long_range d SKX_PERFCTRLSTS_0) as Hr.
  repeat (split; [assumption|]).
  change SKX_use_allocating_flow_wr_MASK with (2 ^ 7).
  change SKX_nosnoopopwren_MASK with (2 ^ 3).
  rewrite !land_pow2 by lia. rewrite !ddio_val_new_bits by assumption.
  simpl. repeat split; reflexivity.
Qed.

Lemma ddio_round_trip_witness :
  resolvable 0x17 (devices (world_one_port 0x08))
  /\ exists w1, ddio_configure 0x17 1 0 (world_one_port 0x08) = (Ret tt, w1)
                /\ fst (ddio_status 0x17 w1) = Ret 1.
Proof.
  assert (H : resolvable 0x17 (devices (world_one_port 0x08))).
  { exists 0%nat, (sample_dev 0x16 0x17 0x17 0x08).
    split; [reflexivity|]. split; [reflexivity|]. reflexivity. }
  split; [exact H|].
  destruct (ddio_round_trip (world_one_port 0x08) 0x17 H)
    as (p & w1 & w2 & val & Hc & Hs & _).
  exists w1. split; [exact Hc|]. rewrite Hs. reflexivity.
Defined.

(** ** No bridge for the target bus *)

Lemma scan_events_alone n : forall p, leaves_register_alone (scan_events n p).
Proof.
  induction n as [|n IH]; intros p; simpl.
  - constructor.
  - repeat (constructor; [split; reflexivity|]). apply IH.
Qed.

Lemma find_events_alone nic_bus l : leaves_register_alone (find_events nic_bus l).
Proof.
  unfold find_events. apply Forall_app. split; [apply scan_events_alone|].
  destruct (scan nic_bus l 0 None 0xff); repeat constructor.
Qed.

Lemma parameter_report_alone nic_bus a b :
  leaves_register_alone (parameter_report nic_bus a b).
Proof. repeat constructor. Qed.

(** No record with the target as subordinate bus and a secondary bus up to
    the target: the scan returns NULL. *)
Lemma scan_no_candidate nic_bus l :
  (forall j d, l !! j = Some d ->
     ~ (subordinateBus d = nic_bus /\ secondaryBus d <= nic_bus)) ->
  scan nic_bus l 0 None 0xff = None.
Proof.
  intros Hno. apply scan_none. intros j d Hj Hc.
  apply candidate_iff in Hc. exfalso. eapply Hno; eassumption.
Qed.

(** C6: when no record of the enumeration has the target as subordinate
    bus and a secondary bus up to the target, the program, started with
    valid arguments, prints "No device found!" and ends through exit(1);
    nothing it did reads or writes perfctrlsts_0 or writes to any device,
    and the devices are as they were.  [ddio_configure] and [ddio_status]
    called on their own end the same way. *)
Theorem main_no_covering_bridge (argv : list string) (w : world) (nic_bus : Z) :
  length argv = 4%nat ->
  u8 (strtol (nth 1 argv EmptyString) 0) = nic_bus ->
  u8 (atoi (nth 2 argv EmptyString)) <= 1 ->
  u8 (atoi (nth 3 argv EmptyString)) <= 1 ->
  (forall j d, devices w !! j = Some d ->
     ~ (subordinateBus d = nic_bus /\ secondaryBus d <= nic_bus)) ->
  (exists es,
     main argv w = (Exit 1, logs es (set_pacc w))
     /\ exit_status (fst (main argv w)) = Some 1
     /\ In no_device es /\ leaves_register_alone es
     /\ devices (snd (main argv w)) = devices w)
  /\ (forall a b, exists es,
        ddio_configure nic_bus a b w = (Exit 1, logs es (set_pacc w))
        /\ In no_device es /\ leaves_register_alone es)
  /\ (exists es,
        ddio_status nic_bus w = (Exit 1, logs es (set_pacc w))
        /\ In no_device es /\ leaves_register_alone es).
Proof.
  intros Hlen Hbus H2 H3 Hno.
  pose proof (scan_no_candidate nic_bus (devices w) Hno) as Hscan.
  assert (Hinit : leaves_register_alone (init_events w)).
  { unfold init_events. destruct (pacc w); repeat constructor. }
  assert (Hlast : leaves_register_alone [no_device]) by repeat constructor.
  split; [|split].
  - rewrite (main_valid_run argv w Hlen H2 H3), Hbus.
    rewrite (main_configure_not_found_run _ _ _ _ Hscan).
    eexists. split; [reflexivity|]. split; [reflexivity|]. split; [|split].
    + rewrite !in_app_iff. right. right. right. now left.
    + apply Forall_app; split; [apply parameter_report_alone|].
      apply Forall_app; split; [repeat constructor|].
      apply Forall_app; split; [apply find_events_alone | exact Hlast].
    + reflexivity.
  - intros a b. rewrite (ddio_configure_not_found_run _ _ _ _ Hscan).
    eexists. split; [reflexivity|]. split.
    + rewrite !in_app_iff. right. right. now left.
    + apply Forall_app; split; [exact Hinit|].
      apply Forall_app; split; [apply find_events_alone | exact Hlast].
  - rewrite (ddio_status_not_found_run _ _ Hscan).
    eexists. split; [reflexivity|]. split.
    + rewrite !in_app_iff. right. right. now left.
    + apply Forall_app; split; [exact Hinit|].
      apply Forall_app; split; [apply find_events_alone | exact Hlast].
Qed.

Lemma main_no_covering_bridge_witness :
  exit_status
    (fst (main ["change-ddio"; "0x17"; "1"; "0"]%string
            (fresh_world [sample_dev 0x00 0x01 0x16 0x88])))
  = Some 1.
Proof.
  assert (H2 : u8 (atoi "1") <= 1) by (vm_compute; discriminate).
  assert (H3 : u8 (atoi "0") <= 1) by (vm_compute; discriminate).
  assert (Hno : forall j d,
            devices (fresh_world [sample_dev 0x00 0x01 0x16 0x88]) !! j = Some d ->
            ~ (subordinateBus d = 0x17 /\ secondaryBus d <= 0x17)).
  { intros [|j] d Hj; simpl in Hj; [|discriminate].
    injection Hj as <-. intros [Hs _]. vm_compute in Hs. discriminate. }
  destruct (main_no_covering_bridge ["change-ddio"; "0x17"; "1"; "0"]%string
              (fresh_world [sample_dev 0x00 0x01 0x16 0x88]) 0x17
              eq_refl eq_refl H2 H3 Hno) as [(es & _ & Hexit & _) _].
  exact Hexit.
Defined.

(** ** The command line *)

(** A wrong argument count, or a flag byte above 1, ends [main] with
    status 1 after it printed the usage or the error line and did nothing
    else. *)
Lemma main_rejects argv w :
  length argv <> 4%nat
  \/ u8 (atoi (nth 2 argv EmptyString)) > 1
  \/ u8 (atoi (nth 3 argv EmptyString)) > 1 ->
  exists es,
    main argv w = (Ret 1, logs es w) /\ es <> [] /\ Forall only_printf es.
Proof.
  intros Hbad. destruct (Nat.eq_dec (length argv) 4%nat) as [Hlen|Hlen].
  - destruct Hbad as [Hbad|Hbad]; [contradiction|].
    exists [flag_error]. split; [now apply main_flag_error_run|].
    split; [discriminate | repeat constructor].
  - exists (usage_events (nth 0 argv EmptyString)).
    split; [now apply main_usage_run|].
    split; [discriminate | repeat constructor].
Qed.

(** C8, at the input where the code departs from it: with 256 as the DDIO
    flag the program prints no error, scans the bus, writes perfctrlsts_0
    (0x88 becomes 0: DDIO is switched off) and ends with status 0. *)
Theorem main_accepts_flag_256 :
  fst (main ["change-ddio"; "0x17"; "256"; "0"]%string (world_one_port 0x88)) = Ret 0
  /\ ~ In flag_error
         (trace (snd (main ["change-ddio"; "0x17"; "256"; "0"]%string
                        (world_one_port 0x88))))
  /\ In EvScanBus
       (trace (snd (main ["change-ddio"; "0x17"; "256"; "0"]%string
                      (world_one_port 0x88))))
  /\ In (EvWriteLong 0 SKX_PERFCTRLSTS_0 0)
       (trace (snd (main ["change-ddio"; "0x17"; "256"; "0"]%string
                      (world_one_port 0x88))))
  /\ observed 0 (world_one_port 0x88) = Some 0x88
  /\ observed 0 (snd (main ["change-ddio"; "0x17"; "256"; "0"]%string
                        (world_one_port 0x88))) = Some 0.
Proof.
  split; [vm_compute; reflexivity|].
  split.
  { vm_compute. intros H.
    repeat (destruct H as [H|H]; [discriminate H|]). exact H. }
  split; [vm_compute; tauto|].
  split; [vm_compute; tauto|].
  split; vm_compute; reflexivity.
Qed.

(** The run of [main] once the flags are accepted: the first lines it
    prints show the flag bytes it goes on with. *)
Lemma main_configure_trace nic_bus a b w :
  exists es,
    trace (snd (main_configure nic_bus a b w))
    = trace w ++ parameter_report nic_bus a b ++ [EvAlloc; EvInit; EvScanBus] ++ es.
Proof.
  destruct (scan nic_bus (devices w) 0 None 0xff) as [p|] eqn:Hscan.
  - destruct (scan_found _ _ _ Hscan) as (d & _ & Hd & _).
    rewrite (main_configure_run _ _ _ _ _ _ Hscan Hd). simpl.
    eexists. reflexivity.
  - rewrite (main_configure_not_found_run _ _ _ _ Hscan). simpl.
    eexists. reflexivity.
Qed.

(** C10: the flag arguments go through [atoi] and a cast to [uint8_t]
    before they are compared with 1, so when the integer values of both are
    congruent to 0 or 1 modulo 256, [main] prints no error and goes on as
    it does for the flags 0 or 1: it reports those flag values, sets up
    libpci and runs the configuration with them.  256 and 257 are read as 0
    and 1. *)
Theorem main_flags_modulo_256 (argv : list string) (w : world) (a b : Z) :
  length argv = 4%nat ->
  atoi (nth 2 argv EmptyString) mod 256 = a -> a = 0 \/ a = 1 ->
  atoi (nth 3 argv EmptyString) mod 256 = b -> b = 0 \/ b = 1 ->
  main argv w = main_configure (u8 (strtol (nth 1 argv EmptyString) 0)) a b w
  /\ (exists es,
        trace (snd (main argv w))
        = trace w ++ parameter_report (u8 (strtol (nth 1 argv EmptyString) 0)) a b
          ++ [EvAlloc; EvInit; EvScanBus] ++ es)
  /\ forall argv0 port,
       main [argv0; port; "256"; "257"]%string w
       = main [argv0; port; "0"; "1"]%string w.
Proof.
  intros Hlen Ha Ha01 Hb Hb01.
  assert (Hmain : main argv w
                  = main_configure (u8 (strtol (nth 1 argv EmptyString) 0)) a b w).
  { rewrite main_valid_run; unfold u8; change (2 ^ 8) with 256;
      rewrite ?Ha, ?Hb; try reflexivity; try assumption; lia. }
  split; [exact Hmain|]. split.
  - rewrite Hmain. apply main_configure_trace.
  - intros argv0 port. reflexivity.
Qed.

Lemma main_flags_modulo_256_witness :
  atoi "256" mod 256 = 0 /\ atoi "-255" mod 256 = 1
  /\ main ["change-ddio"; "0x17"; "256"; "-255"]%string (world_one_port 0)
     = main_configure 0x17 0 1 (world_one_port 0).
Proof.
  split; [reflexivity|]. split; [reflexivity|].
  destruct (main_flags_modulo_256
              ["change-ddio"; "0x17"; "256"; "-255"]%string (world_one_port 0)
              0 1 eq_refl eq_refl (or_introl eq_refl) eq_refl (or_intror eq_refl))
    as [H _].
  exact H.
Defined.

(** ** What ddio_configure gives back *)

(** C9 as stated fails: [ddio_configure] is a [void] function.  On a
    machine whose root port for bus 0x17 holds 0 in perfctrlsts_0, the
    calls with flags (1, 0) and (0, 0) both return the same empty result
    while the register reads 0x80 after the first and 0 after the second,
    so nothing computed from the result is the observed state. *)
Lemma ddio_configure_result_carries_no_state :
  fst (ddio_configure 0x17 1 0 (world_one_port 0)) = Ret tt
  /\ fst (ddio_configure 0x17 0 0 (world_one_port 0)) = Ret tt
  /\ observed 0 (snd (ddio_configure 0x17 1 0 (world_one_port 0))) = Some 0x80
  /\ observed 0 (snd (ddio_configure 0x17 0 0 (world_one_port 0))) = Some 0
  /\ ~ exists decode : unit -> Z,
         forall a,
           match ddio_configure 0x17 a 0 (world_one_port 0) with
           | (Ret r, w') => observed 0 w' = Some (decode r)
           | _ => False
           end.
Proof.
  split; [vm_compute; reflexivity|].
  split; [vm_compute; reflexivity|].
  split; [vm_compute; reflexivity|].
  split; [vm_compute; reflexivity|].
  intros [decode H].
  pose proof (H 1) as H1. pose proof (H 0) as H0.
  vm_compute in H1, H0. congruence.
Qed.

(** C9 as amended: when the resolver finds a bridge, [ddio_configure]
    writes the new value, reads the register again and prints the value it
    read back, raw and decoded, under the AFTER heading; the value printed
    is the one the register holds when the call returns, and the call
    returns no value. *)
Theorem ddio_configure_prints_observed (w : world) (nic_bus a b : Z) :
  resolvable nic_bus (devices w) ->
  exists p w' pre val_new val_after,
    ddio_configure nic_bus a b w = (Ret tt, w')
    /\ observed p w' = Some val_after
    /\ trace w' =
         pre ++ [EvWriteLong p SKX_PERFCTRLSTS_0 val_new;
                 EvReadLong p SKX_PERFCTRLSTS_0]
         ++ register_report "\n=== AFTER Configuration ===\n" val_after
         ++ [EvPrintf "\nConfiguration applied successfully!\n" []].
Proof.
  intros Hres.
  destruct (ddio_configure_then_status nic_bus a b w Hres)
    as (p & d & w1 & w2 & Hscan & Hd & Hc & Ho & _).
  pose proof Hc as Hrun.
  rewrite (ddio_configure_run _ _ _ _ _ _ Hscan Hd) in Hrun.
  injection Hrun as Hw1.
  exists p, w1,
    (trace w ++ init_events w ++ find_events nic_bus (devices w)
     ++ [EvReadLong p SKX_PERFCTRLSTS_0]
     ++ register_report "\n=== BEFORE Configuration ===\n"
          (cfg_long d SKX_PERFCTRLSTS_0)),
    (ddio_val_new (cfg_long d SKX_PERFCTRLSTS_0) a b),
    (ddio_val_new (cfg_long d SKX_PERFCTRLSTS_0) a b).
  split; [exact Hc|]. split; [exact Ho|].
  rewrite <- Hw1. unfold configure_events, set_devices, logs; simpl trace.
  rewrite <- !app_assoc. reflexivity.
Qed.

Lemma ddio_configure_prints_observed_witness :
  resolvable 0x17 (devices (world_one_port 0x08))
  /\ exists w', ddio_configure 0x17 1 0 (world_one_port 0x08) = (Ret tt, w').
Proof.
  assert (H : resolvable 0x17 (devices (world_one_port 0x08))).
  { exists 0%nat, (sample_dev 0x16 0x17 0x17 0x08).
    split; [reflexivity|]. split; reflexivity. }
  split; [exact H|].
  destruct (ddio_configure_prints_observed (world_one_port 0x08) 0x17 1 0 H)
    as (p & w' & pre & val_new & val_after & Hc & _).
  exists w'. exact Hc.
Defined.

(** * Further properties of the program *)

(** ** find_ddio_device *)



(** X2: the device returned is on the lowest bus of all candidates, and
    every candidate before it on the list is on a strictly higher bus:
    among candidates on the same lowest bus the first on the list wins. *)
Theorem resolver_selects_lowest_first (w : world) (nic_bus : Z) (p : nat) :
  pacc w = true ->
  fst (find_ddio_device nic_bus w) = Ret (Some p) ->
  exists d, devices w !! p = Some d
    /\ (forall j d', devices w !! j = Some d' ->
          subordinateBus d' = nic_bus -> secondaryBus d' <= nic_bus ->
          busNumber d <= busNumber d')
    /\ (forall j d', (j < p)%nat -> devices w !! j = Some d' ->
          subordinateBus d' = nic_bus -> secondaryBus d' <= nic_bus ->
          busNumber d < busNumber d').
Proof.
  intros Hp. rewrite find_ddio_device_run by assumption. simpl.
  intros [= H]. apply scan_found in H as (d & _ & Hj & Hc & Hmin & Hfirst).
  exists d. split; [assumption|]. split.
  - intros j d' Hj' Hs Hl. eapply Hmin; [eassumption|].
    apply candidate_iff. now split.
  - intros j d' Hlt Hj' Hs Hl. eapply Hfirst; try eassumption.
    apply candidate_iff. now split.
Qed.

Lemma resolver_selects_lowest_first_witness :
  pacc world_tie = true
  /\ fst (find_ddio_device 0x17 world_tie) = Ret (Some 1%nat)
  /\ exists d, devices world_tie !! 1%nat = Some d
               /\ busNumber d <= busNumber (sample_dev 0x10 0x11 0x17 0).
Proof.
  split; [reflexivity|]. split; [reflexivity|].
  destruct (resolver_selects_lowest_first world_tie 0x17 1 eq_refl eq_refl)
    as (d & Hd & Hmin & _).
  exists d. split; [exact Hd|].
  apply (Hmin 0%nat); [reflexivity | reflexivity | vm_compute; discriminate].
Defined.

(** X3: once [pacc] is set [find_ddio_device] always returns, and it
    returns a device exactly when some record with the target as
    subordinate bus and a secondary bus up to the target is on a bus other
    than 0xff. *)
Theorem resolver_finds_iff (w : world) (nic_bus : Z) :
  pacc w = true ->
  (exists found, fst (find_ddio_device nic_bus w) = Ret found)
  /\ ((exists p, fst (find_ddio_device nic_bus w) = Ret (Some p))
      <-> exists j d, devices w !! j = Some d
                      /\ subordinateBus d = nic_bus /\ secondaryBus d <= nic_bus
                      /\ busNumber d <> 0xff).
Proof.
  intros Hp. rewrite find_ddio_device_run by assumption. simpl.
  split; [eauto|]. split.
  - intros [p [= H]]. apply scan_found in H as (d & Hlt & Hj & Hc & _).
    apply candidate_iff in Hc as [Hs Hl].
    exists p, d. repeat split; try assumption. lia.
  - intros (j & d & Hj & Hs & Hl & Hne).
    destruct (scan nic_bus (devices w) 0 None 255) as [p|] eqn:H; [eauto|].
    apply scan_none in H.
    assert (Hc : candidate nic_bus d = true) by (apply candidate_iff; now split).
    specialize (H _ _ Hj Hc). pose proof (busNumber_range d). lia.
Qed.

Lemma resolver_finds_iff_witness :
  pacc world_bus_ff = true
  /\ ~ exists p, fst (find_ddio_device 0x17 world_bus_ff) = Ret (Some p).
Proof.
  split; [reflexivity|].
  destruct (resolver_finds_iff world_bus_ff 0x17 eq_refl) as [_ [Hfwd _]].
  intros Hex. destruct (Hfwd Hex) as (j & d & Hj & Hs & _ & Hne).
  destruct j as [|[|j]]; simpl in Hj; try discriminate; injection Hj as <-.
  - vm_compute in Hs. discriminate.
  - apply Hne. reflexivity.
Defined.

Lemma candidate_same nic_bus d d' :
  same_bus_bytes d d' -> candidate nic_bus d = candidate nic_bus d'.
Proof. intros (_ & Hsec & Hsub). unfold candidate. now rewrite Hsec, Hsub. Qed.

Lemma scan_same nic_bus l l' :
  Forall2 same_bus_bytes l l' ->
  forall p best_match lowest_bus,
    scan nic_bus l p best_match lowest_bus = scan nic_bus l' p best_match lowest_bus.
Proof.
  induction 1 as [|d d' l l' Hd _ IH]; intros p best_match lowest_bus.
  - reflexivity.
  - simpl. rewrite (candidate_same nic_bus d d' Hd).
    destruct Hd as (Hb & _). rewrite Hb.
    destruct (candidate nic_bus d' && (busNumber d' <? lowest_bus)); apply IH.
Qed.

(** X4: what [find_ddio_device] returns depends on nothing but the bus
    number and the two bus-range bytes of each device: vendor, class,
    header type and every other byte of configuration space are never
    looked at, so a device that is no Intel root port, or no bridge at all,
    is returned when bytes 0x19 and 0x1a of its header fit the target. *)
Theorem resolver_looks_at_bus_bytes_only (w w' : world) (nic_bus : Z) :
  pacc w = true -> pacc w' = true ->
  Forall2 same_bus_bytes (devices w) (devices w') ->
  fst (find_ddio_device nic_bus w) = fst (find_ddio_device nic_bus w').
Proof.
  intros Hp Hp' Hsame. rewrite !find_ddio_device_run by assumption. simpl.
  f_equal. now apply scan_same.
Qed.

Lemma resolver_looks_at_bus_bytes_only_witness :
  pacc world_no_bridge = true
  /\ fst (find_ddio_device 0x17 world_no_bridge) = Ret (Some 0%nat).
Proof.
  split; [reflexivity|].
  rewrite (resolver_looks_at_bus_bytes_only world_no_bridge
             (sample_world [sample_dev 0x16 0x17 0x17 0]) 0x17 eq_refl eq_refl).
  - reflexivity.
  - repeat constructor.
Defined.

Lemma none_below_elem nic_bus bound l :
  none_below nic_bus bound l <->
  forall d, In d l -> candidate nic_bus d = true -> bound <= busNumber d.
Proof.
  unfold none_below. split.
  - intros H d Hin. apply list_elem_of_In in Hin.
    apply list_elem_of_lookup in Hin as [j Hj]. eauto.
  - intros H j d Hj. apply H. apply list_elem_of_In.
    apply list_elem_of_lookup. eauto.
Qed.

(** The bus of the device the scan selects: a candidate's bus below 0xff
    that no candidate is below, if there is one. *)
Lemma scan_chosen_bus nic_bus l :
  match scan nic_bus l 0 None 0xff with
  | Some p =>
    exists d, l !! p = Some d /\ In d l /\ candidate nic_bus d = true
              /\ busNumber d < 0xff /\ none_below nic_bus (busNumber d) l
  | None => none_below nic_bus 0xff l
  end.
Proof.
  destruct (scan nic_bus l 0 None 0xff) as [p|] eqn:H.
  - apply scan_found in H as (d & Hlt & Hj & Hc & Hmin & _).
    exists d. repeat split; try assumption.
    apply list_elem_of_In. apply list_elem_of_lookup. eauto.
  - now apply scan_none.
Qed.

(** X5: the bus of the bridge [find_ddio_device] selects, and whether it
    selects one, do not depend on the order in which [pci_scan_bus] lists
    the devices. *)
Theorem resolver_bus_independent_of_order (w w' : world) (nic_bus : Z) :
  pacc w = true -> pacc w' = true ->
  Permutation (devices w) (devices w') ->
  chosen_bus nic_bus w = chosen_bus nic_bus w'.
Proof.
  intros Hp Hp' Hperm. unfold chosen_bus.
  rewrite !find_ddio_device_run by assumption. simpl.
  pose proof (scan_chosen_bus nic_bus (devices w)) as H.
  pose proof (scan_chosen_bus nic_bus (devices w')) as H'.
  destruct (scan nic_bus (devices w) 0 None 255) as [p|];
    destruct (scan nic_bus (devices w') 0 None 255) as [p'|].
  - destruct H as (d & Hd & Hin & Hc & _ & Hmin).
    destruct H' as (d' & Hd' & Hin' & Hc' & _ & Hmin').
    rewrite Hd, Hd'. f_equal.
    pose proof (proj1 (none_below_elem _ _ _) Hmin) as Hall.
    pose proof (proj1 (none_below_elem _ _ _) Hmin') as Hall'.
    assert (busNumber d <= busNumber d').
    { apply Hall; [|assumption]. eapply Permutation_in; [|eassumption].
      now symmetry. }
    assert (busNumber d' <= busNumber d).
    { apply Hall'; [|assumption]. eapply Permutation_in; eassumption. }
    lia.
  - destruct H as (d & _ & Hin & Hc & Hlt & _).
    pose proof (proj1 (none_below_elem _ _ _) H') as Hall'.
    assert (0xff <= busNumber d); [|lia].
    apply Hall'; [|assumption]. eapply Permutation_in; eassumption.
  - destruct H' as (d' & _ & Hin' & Hc' & Hlt' & _).
    pose proof (proj1 (none_below_elem _ _ _) H) as Hall.
    assert (0xff <= busNumber d'); [|lia].
    apply Hall; [|assumption]. eapply Permutation_in; [|eassumption].
    now symmetry.
  - reflexivity.
Qed.

Lemma resolver_bus_independent_of_order_witness :
  Permutation (devices world_tie_swapped) (devices world_tie)
  /\ chosen_bus 0x17 world_tie_swapped = Some 0x05.
Proof.
  assert (H : Permutation (devices world_tie_swapped) (devices world_tie))
    by apply perm_swap.
  split; [exact H|].
  rewrite (resolver_bus_independent_of_order world_tie_swapped world_tie 0x17
             eq_refl eq_refl H).
  reflexivity.
Defined.

Lemma scan_events_filled n : forall p, omap filled (scan_events n p) = seq p n.
Proof.
  induction n as [|n IH]; intros p; simpl; [reflexivity|]. now rewrite IH.
Qed.

Lemma scan_events_byte_reads n : forall p,
  omap byte_read (scan_events n p) = flat_map bus_range_reads (seq p n).
Proof.
  induction n as [|n IH]; intros p; simpl; [reflexivity|]. now rewrite IH.
Qed.

(** X6: [find_ddio_device] is a scan: it changes no device and not
    [pacc]; it calls [pci_fill_info] once for every device of the list, in
    list order, also after a match, and reads the subordinate and the
    secondary bus byte of each, nothing else; it neither reads nor writes
    perfctrlsts_0; and it prints one line exactly when it returns NULL. *)
Theorem resolver_is_a_scan (w : world) (nic_bus : Z) :
  pacc w = true ->
  exists es,
    snd (find_ddio_device nic_bus w) = logs es w
    /\ omap filled es = seq 0 (length (devices w))
    /\ omap byte_read es = flat_map bus_range_reads (seq 0 (length (devices w)))
    /\ leaves_register_alone es
    /\ (In (EvPrintf "Could not find the proper PCIe root!\n" []) es
        <-> fst (find_ddio_device nic_bus w) = Ret None).
Proof.
  intros Hp. rewrite find_ddio_device_run by assumption. simpl.
  exists (find_events nic_bus (devices w)). split; [reflexivity|].
  unfold find_events. rewrite !omap_app, scan_events_filled, scan_events_byte_reads.
  assert (Hnot : forall n q,
            ~ In (EvPrintf "Could not find the proper PCIe root!\n" [])
                (scan_events n q)).
  { induction n as [|n IH]; intros q; simpl; [tauto|].
    intros [H|[H|[H|H]]]; try discriminate. eapply IH; eassumption. }
  destruct (scan nic_bus (devices w) 0 None 255) as [p|] eqn:Hscan; simpl;
    rewrite !app_nil_r.
  - split; [reflexivity|]. split; [reflexivity|].
    split; [apply scan_events_alone|]. split.
    + intros Hin. exfalso. eapply Hnot; eassumption.
    + discriminate.
  - split; [reflexivity|]. split; [reflexivity|]. split.
    + apply Forall_app; split; [apply scan_events_alone | repeat constructor].
    + split; [reflexivity|]. intros _. apply in_app_iff. right. now left.
Qed.

Lemma resolver_is_a_scan_witness :
  pacc world_tie = true
  /\ devices (snd (find_ddio_device 0x17 world_tie)) = devices world_tie
  /\ omap filled (trace (snd (find_ddio_device 0x17 world_tie))) = [0%nat; 1%nat].
Proof.
  split; [reflexivity|].
  destruct (resolver_is_a_scan world_tie 0x17 eq_refl) as (es & Hw & Hf & _).
  rewrite Hw. split; [reflexivity|]. simpl. exact Hf.
Defined.

(** ** The new register value, applied again *)

Lemma ddio_val_new_overwrite v a b a' b' :
  0 <= v < 2 ^ 32 ->
  ddio_val_new (ddio_val_new v a b) a' b' = ddio_val_new v a' b'.
Proof.
  intros Hv. apply Z.bits_inj'. intros n Hn.
  rewrite (ddio_val_new_bits (ddio_val_new v a b))
    by (apply ddio_val_new_range; assumption).
  rewrite !ddio_val_new_bits by assumption.
  destruct (n =? 3); [reflexivity|]. destruct (n =? 7); reflexivity.
Qed.

(** X7: computing a new value from a new value forgets the first pair of
    flags: the result is what the second pair gives on the original
    register value.  With the same flags twice, the second computation
    changes nothing. *)
Theorem ddio_val_new_last_wins (v a b a' b' : Z) :
  0 <= v < 2 ^ 32 ->
  ddio_val_new (ddio_val_new v a b) a' b' = ddio_val_new v a' b'
  /\ ddio_val_new (ddio_val_new v a b) a b = ddio_val_new v a b.
Proof.
  intros Hv. split; apply ddio_val_new_overwrite; assumption.
Qed.

Lemma ddio_val_new_last_wins_witness :
  0 <= 0x0000ff00 < 2 ^ 32
  /\ ddio_val_new (ddio_val_new 0x0000ff00 1 1) 0 1 = 0x0000ff08.
Proof.
  assert (H : 0 <= 0x0000ff00 < 2 ^ 32) by lia.
  split; [exact H|].
  destruct (ddio_val_new_last_wins 0x0000ff00 1 1 0 1 H) as [Hlast _].
  rewrite Hlast. reflexivity.
Defined.

(** X8: the new value differs from the register value exactly when a flag
    differs from the bit the register already has; flags equal to the
    current bits 7 and 3 give the register value back. *)
Theorem ddio_val_new_unchanged_iff (v a b : Z) :
  0 <= v < 2 ^ 32 ->
  (ddio_val_new v a b = v
   <-> Z.testbit v 7 = negb (a =? 0) /\ Z.testbit v 3 = negb (b =? 0))
  /\ ddio_val_new v (Z.b2z (Z.testbit v 7)) (Z.b2z (Z.testbit v 3)) = v.
Proof.
  intros Hv.
  assert (Hiff : forall c e,
            ddio_val_new v c e = v
            <-> Z.testbit v 7 = negb (c =? 0) /\ Z.testbit v 3 = negb (e =? 0)).
  { intros c e. split.
    - intros Heq. split.
      + rewrite <- Heq at 1. rewrite ddio_val_new_bits by assumption. reflexivity.
      + rewrite <- Heq at 1. rewrite ddio_val_new_bits by assumption. reflexivity.
    - intros [H7 H3]. apply Z.bits_inj'. intros n Hn.
      rewrite ddio_val_new_bits by assumption.
      destruct (Z.eqb_spec n 3) as [->|N3]; [now rewrite H3|].
      destruct (Z.eqb_spec n 7) as [->|N7]; [now rewrite H7|]. reflexivity. }
  split; [apply Hiff|].
  apply Hiff. split.
  - destruct (Z.testbit v 7); reflexivity.
  - destruct (Z.testbit v 3); reflexivity.
Qed.

Lemma ddio_val_new_unchanged_iff_witness :
  0 <= 0x000000a5 < 2 ^ 32 /\ ddio_val_new 0x000000a5 1 0 = 0x000000a5.
Proof.
  assert (H : 0 <= 0x000000a5 < 2 ^ 32) by lia.
  split; [exact H|].
  destruct (ddio_val_new_unchanged_iff 0x000000a5 1 0 H) as [[_ Hback] _].
  apply Hback. split; reflexivity.
Defined.

(** ** ddio_status *)

Lemma mask_test_bit v k :
  0 <= k -> negb (Z.land v (2 ^ k) =? 0) = Z.testbit v k.
Proof.
  intros Hk. rewrite land_pow2 by assumption.
  destruct (Z.testbit v k); [|reflexivity].
  assert (0 < 2 ^ k) by (apply Z.pow_pos_nonneg; lia).
  replace (2 ^ k =? 0) with false by (symmetry; apply Z.eqb_neq; lia).
  reflexivity.
Qed.

(** X9: when the resolver finds a bridge, [ddio_status] returns 1 if bit 7
    of the bridge's perfctrlsts_0 is set and 0 if not; bit 3 is printed, it
    does not reach the result.  The call only reads: the devices are
    unchanged and no event is a write; afterwards [pacc] is set. *)
Theorem ddio_status_returns_bit7 (w : world) (nic_bus : Z) :
  resolvable nic_bus (devices w) ->
  exists p d es,
    fst (find_ddio_device nic_bus (set_pacc w)) = Ret (Some p)
    /\ devices w !! p = Some d
    /\ ddio_status nic_bus w
       = (Ret (Z.b2z (Z.testbit (cfg_long d SKX_PERFCTRLSTS_0) 7)),
          logs es (set_pacc w))
    /\ Forall (fun e => is_write e = false) es
    /\ In (EvPrintf "NoSnoopOpWrEn val: 0x%x\n"
             [AInt (if Z.testbit (cfg_long d SKX_PERFCTRLSTS_0) 3 then 8 else 0)])
          es.
Proof.
  intros Hres. destruct (resolvable_scan _ _ Hres) as (p & d & Hscan & Hd & _).
  exists p, d. eexists. split.
  { rewrite find_ddio_device_run by reflexivity. simpl. now rewrite Hscan. }
  split; [exact Hd|]. split.
  { rewrite (ddio_status_run _ _ _ _ Hscan Hd). f_equal. f_equal.
    change SKX_use_allocating_flow_wr_MASK with (2 ^ 7).
    rewrite mask_test_bit by lia.
    destruct (Z.testbit _ 7); reflexivity. }
  split.
  - apply Forall_app; split.
    { unfold init_events. destruct (pacc w); repeat constructor. }
    apply Forall_app; split.
    { eapply Forall_impl; [apply find_events_alone|]. intros e [_ He]. exact He. }
    repeat constructor.
  - rewrite !in_app_iff. right. right. right. unfold status_report.
    right. left. f_equal. f_equal. f_equal.
    change SKX_nosnoopopwren_MASK with (2 ^ 3).
    rewrite land_pow2 by lia. reflexivity.
Qed.

Lemma ddio_status_returns_bit7_witness :
  resolvable 0x17 (devices (world_one_port 0x88))
  /\ fst (ddio_status 0x17 (world_one_port 0x88)) = Ret 1.
Proof.
  assert (H : resolvable 0x17 (devices (world_one_port 0x88))).
  { exists 0%nat, (sample_dev 0x16 0x17 0x17 0x88).
    split; [reflexivity|]. split; reflexivity. }
  split; [exact H|].
  destruct (ddio_status_returns_bit7 (world_one_port 0x88) 0x17 H)
    as (p & d & es & _ & Hd & Hrun & _).
  rewrite Hrun. simpl fst.
  destruct p as [|p]; simpl in Hd; [|discriminate]. injection Hd as <-.
  reflexivity.
Defined.

(** ** ddio_configure *)

Lemma scan_resolvable nic_bus l p :
  scan nic_bus l 0 None 0xff = Some p -> resolvable nic_bus l.
Proof.
  intros H. apply scan_found in H as (d & Hlt & Hj & Hc & _).
  exists p, d. auto.
Qed.

Lemma scan_not_resolvable nic_bus l :
  scan nic_bus l 0 None 0xff = None -> ~ resolvable nic_bus l.
Proof.
  intros H Hres. destruct (resolvable_scan _ _ Hres) as (p & d & Hs & _).
  congruence.
Qed.

(** X10: from any state, [pacc] set or not, [ddio_configure] ends in one of
    two ways and never through an invalid pointer: it returns when the
    resolver finds a bridge for the bus, and it ends the process with
    exit(1), the devices untouched, when the resolver finds none.  Either
    way [pacc] is set afterwards. *)
Theorem ddio_configure_outcome (w : world) (nic_bus a b : Z) :
  pacc (snd (ddio_configure nic_bus a b w)) = true
  /\ (resolvable nic_bus (devices w) ->
      fst (ddio_configure nic_bus a b w) = Ret tt)
  /\ (~ resolvable nic_bus (devices w) ->
      fst (ddio_configure nic_bus a b w) = Exit 1
      /\ devices (snd (ddio_configure nic_bus a b w)) = devices w)
  /\ (fst (ddio_configure nic_bus a b w) = Ret tt
      \/ fst (ddio_configure nic_bus a b w) = Exit 1).
Proof.
  destruct (scan nic_bus (devices w) 0 None 0xff) as [p|] eqn:Hscan.
  - destruct (scan_found _ _ _ Hscan) as (d & _ & Hd & _).
    rewrite (ddio_configure_run _ _ _ _ _ _ Hscan Hd). simpl.
    split; [reflexivity|]. split; [reflexivity|]. split; [|now left].
    intros Hno. exfalso. apply Hno. eapply scan_resolvable; eassumption.
  - rewrite (ddio_configure_not_found_run _ _ _ _ Hscan). simpl.
    split; [reflexivity|]. split; [|split; [auto | now right]].
    intros Hres. exfalso. eapply scan_not_resolvable; eassumption.
Qed.

(** X11: a successful [ddio_configure] changes nothing but the four bytes
    of perfctrlsts_0 of the bridge the resolver selected: every other
    device is as before, the bridge keeps its bus number and every other
    byte of its configuration space, the list keeps its length, and the
    resolver still selects the same bridge afterwards. *)
Theorem ddio_configure_frame (w : world) (nic_bus a b : Z) :
  resolvable nic_bus (devices w) ->
  exists p d d' w',
    ddio_configure nic_bus a b w = (Ret tt, w')
    /\ devices w !! p = Some d /\ devices w' !! p = Some d'
    /\ length (devices w') = length (devices w)
    /\ (forall q, q <> p -> devices w' !! q = devices w !! q)
    /\ (forall o, o < SKX_PERFCTRLSTS_0 \/ SKX_PERFCTRLSTS_0 + 4 <= o ->
          cfg_byte d' o = cfg_byte d o)
    /\ busNumber d' = busNumber d
    /\ fst (find_ddio_device nic_bus (set_pacc w)) = Ret (Some p)
    /\ fst (find_ddio_device nic_bus w') = Ret (Some p).
Proof.
  intros Hres. destruct (resolvable_scan _ _ Hres) as (p & d & Hscan & Hd & _).
  set (vn := ddio_val_new (cfg_long d SKX_PERFCTRLSTS_0) a b).
  set (d' := cfg_store_long d SKX_PERFCTRLSTS_0 vn).
  exists p, d, d'. eexists.
  split; [apply ddio_configure_run; eassumption|].
  fold vn. fold d'. simpl_devices.
  split; [exact Hd|]. split.
  { apply list_lookup_insert_eq. eapply lookup_lt_Some; eassumption. }
  split; [apply length_insert|]. split.
  { intros q Hq. apply list_lookup_insert_ne. congruence. }
  split; [intros o Ho; apply cfg_byte_store_other; exact Ho|].
  split; [reflexivity|]. split.
  - rewrite find_ddio_device_run by reflexivity. simpl. now rewrite Hscan.
  - rewrite find_ddio_device_run by reflexivity. simpl. simpl_devices.
    rewrite (scan_insert nic_bus d' _ p 0%nat None 0xff d Hd);
      [now rewrite Hscan | apply candidate_store | reflexivity].
Qed.

Lemma ddio_configure_frame_witness :
  resolvable 0x17 (devices world_tie)
  /\ exists w', ddio_configure 0x17 1 0 world_tie = (Ret tt, w')
                /\ devices w' !! 0%nat = devices world_tie !! 0%nat.
Proof.
  assert (H : resolvable 0x17 (devices world_tie)).
  { exists 1%nat, (sample_dev 0x05 0x06 0x17 0).
    split; [reflexivity|]. split; reflexivity. }
  split; [exact H|].
  destruct (ddio_configure_frame world_tie 0x17 1 0 H)
    as (p & d & d' & w' & Hrun & _ & _ & _ & Hother & _ & _ & Hfind & _).
  exists w'. split; [exact Hrun|].
  apply Hother. intros Heq. subst p. vm_compute in Hfind. discriminate.
Defined.

(** X12: of two successful calls of [ddio_configure] on the same bus the
    second alone decides the register: afterwards perfctrlsts_0 holds what
    the second pair of flags gives on the value it held before the first
    call.  With the same flags twice the register is after the second call
    as it was after the first. *)
Theorem ddio_configure_twice (w : world) (nic_bus a b a' b' : Z) :
  resolvable nic_bus (devices w) ->
  exists p d w1 w2,
    devices w !! p = Some d
    /\ ddio_configure nic_bus a b w = (Ret tt, w1)
    /\ ddio_configure nic_bus a' b' w1 = (Ret tt, w2)
    /\ observed p w1 = Some (ddio_val_new (cfg_long d SKX_PERFCTRLSTS_0) a b)
    /\ observed p w2 = Some (ddio_val_new (cfg_long d SKX_PERFCTRLSTS_0) a' b')
    /\ (a' = a -> b' = b -> observed p w2 = observed p w1).
Proof.
  intros Hres. destruct (resolvable_scan _ _ Hres) as (p & d & Hscan & Hd & _).
  pose proof (cfg_long_range d SKX_PERFCTRLSTS_0) as Hv.
  set (v := cfg_long d SKX_PERFCTRLSTS_0) in *.
  set (vn := ddio_val_new v a b).
  assert (Hvn : 0 <= vn < 2 ^ 32) by (apply ddio_val_new_range; assumption).
  set (d1 := cfg_store_long d SKX_PERFCTRLSTS_0 vn).
  assert (Hd1 : <[p := d1]> (devices w) !! p = Some d1).
  { apply list_lookup_insert_eq. eapply lookup_lt_Some; eassumption. }
  assert (Hval1 : cfg_long d1 SKX_PERFCTRLSTS_0 = vn).
  { unfold d1. rewrite cfg_long_store. now apply u32_small. }
  assert (Hscan1 : scan nic_bus (<[p := d1]> (devices w)) 0 None 0xff = Some p).
  { rewrite (scan_insert nic_bus d1 _ p 0%nat None 0xff d Hd);
      [assumption | apply candidate_store | reflexivity]. }
  pose proof (ddio_configure_run nic_bus a b w p d Hscan Hd) as Hrun1.
  fold v in Hrun1. fold vn in Hrun1. fold d1 in Hrun1.
  set (w1 := set_devices (<[p := d1]> (devices w)) _) in Hrun1.
  pose proof (ddio_configure_run nic_bus a' b' w1 p d1 Hscan1 Hd1) as Hrun2.
  rewrite Hval1 in Hrun2.
  assert (Hlast : ddio_val_new vn a' b' = ddio_val_new v a' b').
  { unfold vn. apply ddio_val_new_overwrite. assumption. }
  rewrite Hlast in Hrun2.
  set (vn2 := ddio_val_new v a' b') in *.
  assert (Hvn2 : 0 <= vn2 < 2 ^ 32) by (apply ddio_val_new_range; assumption).
  set (w2 := set_devices _ _) in Hrun2.
  assert (Ho1 : observed p w1 = Some vn).
  { unfold observed, w1. simpl_devices. rewrite Hd1. now rewrite Hval1. }
  assert (Ho2 : observed p w2 = Some vn2).
  { unfold observed, w2. simpl_devices.
    rewrite list_lookup_insert_eq by (eapply lookup_lt_Some; exact Hd1).
    rewrite cfg_long_store. now rewrite u32_small. }
  exists p, d, w1, w2. repeat (split; [assumption|]).
  intros -> ->. now rewrite Ho1, Ho2.
Qed.

Lemma ddio_configure_twice_witness :
  resolvable 0x17 (devices (world_one_port 0x08))
  /\ exists w1 w2,
       ddio_configure 0x17 1 1 (world_one_port 0x08) = (Ret tt, w1)
       /\ ddio_configure 0x17 0 0 w1 = (Ret tt, w2)
       /\ observed 0 w2 = Some 0.
Proof.
  assert (H : resolvable 0x17 (devices (world_one_port 0x08))).
  { exists 0%nat, (sample_dev 0x16 0x17 0x17 0x08).
    split; [reflexivity|]. split; reflexivity. }
  split; [exact H|].
  destruct (ddio_configure_twice (world_one_port 0x08) 0x17 1 1 0 0 H)
    as (p & d & w1 & w2 & Hd & Hrun1 & Hrun2 & _ & Ho2 & _).
  exists w1, w2. split; [exact Hrun1|]. split; [exact Hrun2|].
  destruct p as [|p]; simpl in Hd; [|discriminate]. injection Hd as <-.
  rewrite Ho2. reflexivity.
Defined.

Lemma shifted_mask_bit v k :
  0 <= k -> Z.shiftr (Z.land v (2 ^ k)) k = Z.b2z (Z.testbit v k).
Proof.
  intros Hk. rewrite land_pow2 by assumption.
  destruct (Z.testbit v k); simpl.
  - rewrite Z.shiftr_div_pow2 by assumption. apply Z.div_same.
    assert (0 < 2 ^ k) by (apply Z.pow_pos_nonneg; lia). lia.
  - apply Z.shiftr_0_l.
Qed.

(** The lines of the report for a value this program computed. *)
Lemma register_report_of_new title v a b :
  0 <= v < 2 ^ 32 ->
  register_report title (ddio_val_new v a b) =
    [EvPrintf title [];
     EvPrintf "perfctrlsts_0 register value: 0x%08x\n" [AInt (ddio_val_new v a b)];
     EvPrintf "  Use_Allocating_Flow_Wr (bit 7, DDIO): 0x%02x (%s)\n"
       [AInt (Z.b2z (negb (a =? 0)));
        AStr (if negb (a =? 0) then "enabled" else "disabled")];
     EvPrintf "  NoSnoopOpWrEn (bit 3, NS): 0x%02x (%s)\n"
       [AInt (Z.b2z (negb (b =? 0)));
        AStr (if negb (b =? 0) then "mem write" else "LLC write")]].
Proof.
  intros Hv. unfold register_report.
  change SKX_use_allocating_flow_wr_MASK with (2 ^ 7).
  change SKX_nosnoopopwren_MASK with (2 ^ 3).
  rewrite !shifted_mask_bit, !mask_test_bit by lia.
  rewrite !ddio_val_new_bits by assumption. reflexivity.
Qed.

(** X13: on a simulated register the last three lines a successful
    [ddio_configure] prints show the flags it was called with: bit 7 as 1
    and "enabled" for a nonzero [use_allocating_flow_wr], as 0 and
    "disabled" for zero; bit 3 as 1 and "mem write" for a nonzero
    [nosnoopopwren], as 0 and "LLC write" for zero; then the line that the
    configuration was applied. *)
Theorem ddio_configure_reports_flags (w : world) (nic_bus a b : Z) :
  resolvable nic_bus (devices w) ->
  exists pre,
    trace (snd (ddio_configure nic_bus a b w)) =
      pre ++
      [EvPrintf "  Use_Allocating_Flow_Wr (bit 7, DDIO): 0x%02x (%s)\n"
         [AInt (Z.b2z (negb (a =? 0)));
          AStr (if negb (a =? 0) then "enabled" else "disabled")];
       EvPrintf "  NoSnoopOpWrEn (bit 3, NS): 0x%02x (%s)\n"
         [AInt (Z.b2z (negb (b =? 0)));
          AStr (if negb (b =? 0) then "mem write" else "LLC write")];
       EvPrintf "\nConfiguration applied successfully!\n" []].
Proof.
  intros Hres. destruct (resolvable_scan _ _ Hres) as (p & d & Hscan & Hd & _).
  rewrite (ddio_configure_run _ _ _ _ _ _ Hscan Hd).
  pose proof (cfg_long_range d SKX_PERFCTRLSTS_0) as Hv.
  set (v := cfg_long d SKX_PERFCTRLSTS_0) in *.
  exists (trace w ++ init_events w ++ find_events nic_bus (devices w)
          ++ [EvReadLong p SKX_PERFCTRLSTS_0]
          ++ register_report "\n=== BEFORE Configuration ===\n" v
          ++ [EvWriteLong p SKX_PERFCTRLSTS_0 (ddio_val_new v a b);
              EvReadLong p SKX_PERFCTRLSTS_0;
              EvPrintf "\n=== AFTER Configuration ===\n" [];
              EvPrintf "perfctrlsts_0 register value: 0x%08x\n"
                [AInt (ddio_val_new v a b)]]).
  unfold configure_events.
  rewrite (register_report_of_new "\n=== AFTER Configuration ===\n" v a b Hv).
  unfold set_devices, logs. simpl trace.
  rewrite <- !app_assoc. reflexivity.
Qed.

Lemma ddio_configure_reports_flags_witness :
  resolvable 0x17 (devices (world_one_port 0x08))
  /\ In (EvPrintf "  Use_Allocating_Flow_Wr (bit 7, DDIO): 0x%02x (%s)\n"
           [AInt 1; AStr "enabled"])
        (trace (snd (ddio_configure 0x17 1 0 (world_one_port 0x08)))).
Proof.
  assert (H : resolvable 0x17 (devices (world_one_port 0x08))).
  { exists 0%nat, (sample_dev 0x16 0x17 0x17 0x08).
    split; [reflexivity|]. split; reflexivity. }
  split; [exact H|].
  destruct (ddio_configure_reports_flags (world_one_port 0x08) 0x17 1 0 H)
    as (pre & Htrace).
  rewrite Htrace. apply in_app_iff. right. left. reflexivity.
Defined.

(** ** main *)

(** X14: [main] called with an argument count other than four, or with
    four arguments and a flag byte above 1, returns 1 after printing only:
    the eight usage lines for a wrong count, whatever the flags are, and
    the one error line for a bad flag; it makes no libpci call, so [pacc]
    and the devices are as they were. *)
Theorem main_bad_arguments (argv : list string) (w : world) :
  length argv <> 4%nat
  \/ u8 (atoi (nth 2 argv EmptyString)) > 1
  \/ u8 (atoi (nth 3 argv EmptyString)) > 1 ->
  exists es,
    main argv w = (Ret 1, logs es w)
    /\ Forall only_printf es
    /\ (length argv <> 4%nat -> length es = 8%nat)
    /\ (length argv = 4%nat -> es = [flag_error]).
Proof.
  intros Hbad. destruct (Nat.eq_dec (length argv) 4%nat) as [Hlen|Hlen].
  - destruct Hbad as [Hbad|Hbad]; [contradiction|].
    exists [flag_error]. split; [now apply main_flag_error_run|].
    split; [repeat constructor|]. split; [contradiction | reflexivity].
  - exists (usage_events (nth 0 argv EmptyString)).
    split; [now apply main_usage_run|].
    split; [repeat constructor|]. split; [reflexivity | contradiction].
Qed.

Lemma main_bad_arguments_witness :
  u8 (atoi "2") > 1
  /\ main ["change-ddio"; "0x17"; "2"; "0"]%string (world_one_port 0x88)
     = (Ret 1, logs [flag_error] (world_one_port 0x88)).
Proof.
  assert (H : u8 (atoi "2") > 1) by reflexivity.
  split; [exact H|].
  destruct (main_bad_arguments ["change-ddio"; "0x17"; "2"; "0"]%string
              (world_one_port 0x88) (or_intror (or_introl H)))
    as (es & Hrun & _ & _ & Hes).
  rewrite Hrun, (Hes eq_refl). reflexivity.
Defined.

(** X15: [main] always ends with exit status 0 or 1, never through an
    invalid pointer; the status is 0 exactly when there are four
    arguments, both flag bytes are at most 1 and the resolver finds a
    bridge for the bus the port argument gives modulo 256. *)
Theorem main_exit_status (argv : list string) (w : world) :
  (exit_status (fst (main argv w)) = Some 0
   \/ exit_status (fst (main argv w)) = Some 1)
  /\ (exit_status (fst (main argv w)) = Some 0
      <-> length argv = 4%nat
          /\ u8 (atoi (nth 2 argv EmptyString)) <= 1
          /\ u8 (atoi (nth 3 argv EmptyString)) <= 1
          /\ resolvable (u8 (strtol (nth 1 argv EmptyString) 0)) (devices w)).
Proof.
  destruct (Nat.eq_dec (length argv) 4%nat) as [Hlen|Hlen].
  2:{ rewrite (main_usage_run argv w Hlen). simpl.
      split; [now right|]. split; [discriminate | intros [H _]; contradiction]. }
  destruct (Z_le_gt_dec (u8 (atoi (nth 2 argv EmptyString))) 1) as [H2|H2].
  2:{ rewrite (main_flag_error_run argv w Hlen (or_introl H2)). simpl.
      split; [now right|]. split; [discriminate | intros (_ & H & _); lia]. }
  destruct (Z_le_gt_dec (u8 (atoi (nth 3 argv EmptyString))) 1) as [H3|H3].
  2:{ rewrite (main_flag_error_run argv w Hlen (or_intror H3)). simpl.
      split; [now right|]. split; [discriminate | intros (_ & _ & H & _); lia]. }
  rewrite (main_valid_run argv w Hlen H2 H3).
  set (nic_bus := u8 (strtol (nth 1 argv EmptyString) 0)).
  destruct (scan nic_bus (devices w) 0 None 0xff) as [p|] eqn:Hscan.
  - destruct (scan_found _ _ _ Hscan) as (d & _ & Hd & _).
    rewrite (main_configure_run _ _ _ _ _ _ Hscan Hd). simpl.
    split; [now left|]. split; [|reflexivity].
    intros _. repeat split; try assumption. eapply scan_resolvable; eassumption.
  - rewrite (main_configure_not_found_run _ _ _ _ Hscan). simpl.
    split; [now right|]. split; [discriminate|].
    intros (_ & _ & _ & Hres). exfalso.
    eapply scan_not_resolvable; eassumption.
Qed.

(** X16: a successful run of [main].  With four arguments, flag bytes [a]
    and [b] at most 1 and a bridge for the bus, [main] returns 0;
    perfctrlsts_0 of the bridge then holds the new value computed from the
    value it held, and every other device is untouched.  The run sets up
    libpci once, resolves the bridge twice (in [main] for
    [print_dev_info], and again inside [ddio_configure]), and
    [pci_cleanup] is its last call. *)
Theorem main_success (argv : list string) (w : world) (nic_bus a b : Z) :
  length argv = 4%nat ->
  u8 (strtol (nth 1 argv EmptyString) 0) = nic_bus ->
  u8 (atoi (nth 2 argv EmptyString)) = a -> a <= 1 ->
  u8 (atoi (nth 3 argv EmptyString)) = b -> b <= 1 ->
  resolvable nic_bus (devices w) ->
  exists p d w',
    devices w !! p = Some d
    /\ main argv w = (Ret 0, w')
    /\ observed p w' = Some (ddio_val_new (cfg_long d SKX_PERFCTRLSTS_0) a b)
    /\ (forall q, q <> p -> devices w' !! q = devices w !! q)
    /\ trace w' =
         trace w ++ parameter_report nic_bus a b
         ++ [EvAlloc; EvInit; EvScanBus]
         ++ find_events nic_bus (devices w) ++ dev_info_events d
         ++ find_events nic_bus (devices w)
         ++ configure_events p (cfg_long d SKX_PERFCTRLSTS_0)
              (ddio_val_new (cfg_long d SKX_PERFCTRLSTS_0) a b)
              (ddio_val_new (cfg_long d SKX_PERFCTRLSTS_0) a b)
         ++ [EvCleanup].
Proof.
  intros Hlen Hbus Ha Ha1 Hb Hb1 Hres.
  destruct (resolvable_scan _ _ Hres) as (p & d & Hscan & Hd & _).
  exists p, d. eexists. split; [exact Hd|]. split.
  { rewrite main_valid_run by (rewrite ?Ha, ?Hb; assumption).
    rewrite Hbus, Ha, Hb. apply main_configure_run; eassumption. }
  pose proof (cfg_long_range d SKX_PERFCTRLSTS_0) as Hv.
  split.
  { unfold observed. simpl_devices.
    rewrite list_lookup_insert_eq by (eapply lookup_lt_Some; eassumption).
    rewrite cfg_long_store, u32_small; [reflexivity|].
    now apply ddio_val_new_range. }
  split.
  { intros q Hq. simpl_devices. apply list_lookup_insert_ne. congruence. }
  reflexivity.
Qed.

Lemma main_success_witness :
  exists w',
    main ["change-ddio"; "0x17"; "1"; "0"]%string (world_one_port 0x08)
    = (Ret 0, w')
    /\ observed 0 w' = Some 0x80.
Proof.
  assert (H : resolvable 0x17 (devices (world_one_port 0x08))).
  { exists 0%nat, (sample_dev 0x16 0x17 0x17 0x08).
    split; [reflexivity|]. split; reflexivity. }
  assert (H1 : 1 <= 1) by lia.
  assert (H0 : 0 <= 1) by lia.
  destruct (main_success ["change-ddio"; "0x17"; "1"; "0"]%string
              (world_one_port 0x08) 0x17 1 0
              eq_refl eq_refl eq_refl H1 eq_refl H0 H)
    as (p & d & w' & Hd & Hrun & Ho & _).
  exists w'. split; [exact Hrun|].
  destruct p as [|p]; simpl in Hd; [|discriminate]. injection Hd as <-.
  rewrite Ho. reflexivity.
Defined.

(** X17: the port argument is never checked.  It goes through [strtol]
    with base 0 and a cast to [uint8_t], so two port arguments whose
    values agree modulo 256 give the same run. *)
Theorem main_port_modulo_256 (argv0 port port' flag_a flag_b : string) (w : world) :
  strtol port 0 mod 256 = strtol port' 0 mod 256 ->
  main [argv0; port; flag_a; flag_b] w = main [argv0; port'; flag_a; flag_b] w.
Proof.
  intros Hmod.
  assert (Hbus : u8 (strtol port 0) = u8 (strtol port' 0)).
  { unfold u8. change (2 ^ 8) with 256. exact Hmod. }
  unfold main. cbv zeta.
  change (nth 1 [argv0; port; flag_a; flag_b] EmptyString) with port.
  change (nth 1 [argv0; port'; flag_a; flag_b] EmptyString) with port'.
  rewrite Hbus. reflexivity.
Qed.

Lemma main_port_modulo_256_witness :
  strtol "0x117" 0 mod 256 = strtol "23" 0 mod 256
  /\ main ["change-ddio"; "0x117"; "1"; "0"]%string (world_one_port 0)
     = main ["change-ddio"; "23"; "1"; "0"]%string (world_one_port 0)
  /\ main ["change-ddio"; "eth0"; "1"; "0"]%string (world_one_port 0)
     = main ["change-ddio"; "0"; "1"; "0"]%string (world_one_port 0).
Proof.
  split; [reflexivity|]. split.
  - apply (main_port_modulo_256 "change-ddio" "0x117" "23" "1" "0"). reflexivity.
  - apply (main_port_modulo_256 "change-ddio" "eth0" "0" "1" "0"). reflexivity.
Defined.

Lemma scan_events_no_init n : forall p, List.filter is_init (scan_events n p) = [].
Proof. induction n as [|n IH]; intros p; simpl; [reflexivity | apply IH]. Qed.

Lemma find_events_no_init nic_bus l : List.filter is_init (find_events nic_bus l) = [].
Proof.
  unfold find_events. rewrite List.filter_app, scan_events_no_init.
  destruct (scan nic_bus l 0 None 0xff); reflexivity.
Qed.

Lemma scan_events_no_cleanup n : forall p, ~ In EvCleanup (scan_events n p).
Proof.
  induction n as [|n IH]; intros p; simpl; [tauto|].
  intros [H|[H|[H|H]]]; try discriminate. eapply IH; eassumption.
Qed.

Lemma find_events_no_cleanup nic_bus l : ~ In EvCleanup (find_events nic_bus l).
Proof.
  unfold find_events. intros H. apply in_app_iff in H as [H|H].
  - eapply scan_events_no_cleanup; eassumption.
  - destruct (scan nic_bus l 0 None 0xff); simpl in H; intuition discriminate.
Qed.

(** X18: the life of the libpci handle in a run of [main].  When the
    arguments pass the checks, [main] calls [pci_alloc], [pci_init] and
    [pci_scan_bus] once, in this order, and [ddio_configure] inside it does
    not set libpci up again; when they do not, it calls none of them.
    [pci_cleanup] is called exactly in the runs that end with status 0: a
    run that ends through exit(1) because no bridge was found leaves the
    handle without cleaning it up. *)
Theorem main_libpci_lifecycle (argv : list string) (w : world) :
  exists es,
    trace (snd (main argv w)) = trace w ++ es
    /\ List.filter is_init es
       = (if accepted argv then [EvAlloc; EvInit; EvScanBus] else [])
    /\ (In EvCleanup es <-> exit_status (fst (main argv w)) = Some 0).
Proof.
  unfold accepted.
  destruct (Nat.eq_dec (length argv) 4%nat) as [Hlen|Hlen].
  2:{ rewrite (main_usage_run argv w Hlen). simpl.
      replace (Nat.eqb (length argv) 4) with false
        by (symmetry; now apply Nat.eqb_neq).
      eexists. split; [reflexivity|]. split; [reflexivity|].
      split; [|discriminate]. simpl. intuition discriminate. }
  rewrite Hlen. simpl Nat.eqb. simpl andb.
  destruct (Z_le_gt_dec (u8 (atoi (nth 2 argv EmptyString))) 1) as [H2|H2].
  2:{ rewrite (main_flag_error_run argv w Hlen (or_introl H2)). simpl.
      replace (u8 (atoi (nth 2 argv EmptyString)) <=? 1) with false
        by (symmetry; apply Z.leb_gt; lia).
      eexists. split; [reflexivity|]. split; [reflexivity|].
      split; [|discriminate]. simpl. intuition discriminate. }
  destruct (Z_le_gt_dec (u8 (atoi (nth 3 argv EmptyString))) 1) as [H3|H3].
  2:{ rewrite (main_flag_error_run argv w Hlen (or_intror H3)). simpl.
      replace (u8 (atoi (nth 3 argv EmptyString)) <=? 1) with false
        by (symmetry; apply Z.leb_gt; lia).
      rewrite andb_false_r.
      eexists. split; [reflexivity|]. split; [reflexivity|].
      split; [|discriminate]. simpl. intuition discriminate. }
  replace (u8 (atoi (nth 2 argv EmptyString)) <=? 1) with true
    by (symmetry; apply Z.leb_le; lia).
  replace (u8 (atoi (nth 3 argv EmptyString)) <=? 1) with true
    by (symmetry; apply Z.leb_le; lia).
  simpl andb.
  rewrite (main_valid_run argv w Hlen H2 H3).
  set (nic_bus := u8 (strtol (nth 1 argv EmptyString) 0)).
  set (a := u8 (atoi (nth 2 argv EmptyString))).
  set (b := u8 (atoi (nth 3 argv EmptyString))).
  pose proof (find_events_no_init nic_bus (devices w)) as Hfi.
  pose proof (find_events_no_cleanup nic_bus (devices w)) as Hfc.
  destruct (scan nic_bus (devices w) 0 None 0xff) as [p|] eqn:Hscan.
  - destruct (scan_found _ _ _ Hscan) as (d & _ & Hd & _).
    rewrite (main_configure_run _ _ _ _ _ _ Hscan Hd).
    cbn [fst snd trace set_devices logs exit_status].
    eexists. split; [reflexivity|]. split.
    + rewrite !List.filter_app, Hfi. reflexivity.
    + split; [reflexivity|]. intros _.
      rewrite !in_app_iff. do 6 right. now left.
  - rewrite (main_configure_not_found_run _ _ _ _ Hscan).
    cbn [fst snd trace set_devices logs exit_status].
    eexists. split; [reflexivity|]. split.
    + rewrite !List.filter_app, Hfi. reflexivity.
    + split; [|discriminate]. rewrite !in_app_iff.
      intros [H|[H|[H|H]]]; try contradiction;
        simpl in H; intuition discriminate.
Qed.
